(** * aws-inventory: a shallow embedding of [aws_inventory.py] and [utils.py]

    The program enumerates AWS resources region by region through boto3,
    flattens every response into a pandas table and writes all tables into
    one workbook.  The embedding keeps the shape of the Python code:

    - Python values (the JSON-like provider responses and the parsed YAML
      document) are the inductive [pyval]; a [dict] is an association list
      in insertion order, looked up by key;
    - exceptions are the [Raise] branch of [result];
    - the provider, the YAML parser and the spreadsheet engine are
      parameters of the development ([Section Program]); PyYAML is
      modelled on flat documents ([yaml_load_flat]);
    - the file system, the log of provider calls and the open spreadsheet
      writers form the [world] threaded through the monad [M].

    Calls to [logging.info] have no effect on any value and are left out. *)

From Stdlib Require Import ZArith Ascii String List Lia.
From stdpp Require Import base list strings gmap.

Local Open Scope string_scope.
Local Open Scope Z_scope.
Local Open Scope list_scope.

(** ** Python values and exceptions *)

#[warnings="-register-all"]
Inductive pyval : Type :=
| PNone
| PBool (b : bool)
| PInt (z : Z)
| PStr (s : string)
| POpaque (repr : string)   (* float, datetime, ...: carried, never inspected *)
| PList (l : list pyval)
| PDict (d : list (string * pyval)).

Inductive exn : Type :=
| KeyError (k : string)
| TypeError
| IndexError
| ValueError
| FileNotFoundError (path : string)
| OSError (path : string)
| UnicodeDecodeError
| YAMLError
| ClientError (msg : string)
| ExcelError (sheet_name : string).

Inductive result (A : Type) : Type :=
| Ok (a : A)
| Raise (e : exn).
Arguments Ok {A} a.
Arguments Raise {A} e.

Definition bind {A B} (r : result A) (k : A -> result B) : result B :=
  match r with
  | Ok a => k a
  | Raise e => Raise e
  end.

Declare Scope result_scope.
Delimit Scope result_scope with result.
Notation "x <- e ;; k" := (bind e (fun x => k))
  (at level 100, e at next level, right associativity) : result_scope.

(** [for x in l: out.append(f(x))], stopping at the first exception. *)
Fixpoint for_each {A B} (f : A -> result B) (l : list A) : result (list B) :=
  match l with
  | [] => Ok []
  | x :: l' =>
      (y <- f x ;;
       ys <- for_each f l' ;;
       Ok (y :: ys))%result
  end.

(** A Python dict with string keys, in insertion order. *)
Fixpoint dict_get {V} (k : string) (d : list (string * V)) : option V :=
  match d with
  | [] => None
  | (k', v) :: d' => if String.eqb k' k then Some v else dict_get k d'
  end.

(** [v[k]] for a string key [k]. *)
Definition getitem (v : pyval) (k : string) : result pyval :=
  match v with
  | PDict d =>
      match dict_get k d with
      | Some x => Ok x
      | None => Raise (KeyError k)
      end
  | _ => Raise TypeError
  end.

Fixpoint chars (s : string) : list pyval :=
  match s with
  | EmptyString => []
  | String c s' => PStr (String c EmptyString) :: chars s'
  end.

(** [iter(v)]: lists yield their items, dicts their keys, strings their
    characters; the other values are not iterable. *)
Definition py_iter (v : pyval) : result (list pyval) :=
  match v with
  | PList l => Ok l
  | PDict d => Ok (map (fun kv => PStr (fst kv)) d)
  | PStr s => Ok (chars s)
  | _ => Raise TypeError
  end.

(** [v == s] for a string literal [s]. *)
Definition py_eq_str (v : pyval) (s : string) : bool :=
  match v with
  | PStr s' => String.eqb s' s
  | _ => false
  end.

(** ** pandas tables *)

(** A flattened record: the dict literal appended to the [*_data] list. *)
Abbreviation record := (list (string * pyval)).

(** A DataFrame: column labels, row labels and the rows.  A row keeps the
    cells it has a value for; a column the row has no entry for is a
    missing cell (NaN). *)
Record DataFrame : Type := mkDataFrame {
  df_columns : list string;
  df_index : list Z;
  df_rows : list record
}.

Definition add_column (cols : list string) (c : string) : list string :=
  if existsb (String.eqb c) cols then cols else cols ++ [c].

(** Labels of [b] not yet in [a] are appended to [a], in their order. *)
Definition union_columns (a b : list string) : list string :=
  fold_left add_column b a.

Definition RangeIndex (n : nat) : list Z := map Z.of_nat (seq 0 n).

(** [pd.DataFrame()] *)
Definition pd_DataFrame_empty : DataFrame := mkDataFrame [] [] [].

(** [pd.DataFrame(data)] for a list of dicts: the columns are the keys in
    order of first appearance, the index is [0 .. len(data)-1]. *)
Definition pd_DataFrame (data : list record) : DataFrame :=
  mkDataFrame
    (fold_left (fun cols r => union_columns cols (map fst r)) data [])
    (RangeIndex (length data))
    data.

(** [pd.concat([a, b], ignore_index=True)]: outer join of the columns, the
    rows of [a] followed by those of [b], and a fresh range index. *)
Definition pd_concat (a b : DataFrame) : DataFrame :=
  mkDataFrame
    (union_columns (df_columns a) (df_columns b))
    (RangeIndex (length (df_rows a ++ df_rows b)))
    (df_rows a ++ df_rows b).

(** The cell of a row under a column label; [None] is a missing cell. *)
Definition cell (r : record) (c : string) : option pyval := dict_get c r.

(** A worksheet is a grid of cells.  [df.to_excel(writer, sheet_name)]
    with its defaults ([header=True], [index=True]) writes a header row
    whose first cell is blank, then one row per table row: the row label
    followed by the cells in column order. *)
Abbreviation sheet := (list (list (option pyval))).

Definition to_sheet (df : DataFrame) : sheet :=
  (None :: map (fun c => Some (PStr c)) (df_columns df))
  :: map (fun ir => Some (PInt (fst ir)) :: map (cell (snd ir)) (df_columns df))
         (zip (df_index df) (df_rows df)).

(** The worksheet of one entry of a table mapping: named by the key,
    holding the sheet of the table. *)
Definition entry_sheet (item : string * DataFrame) : string * sheet :=
  (fst item, to_sheet (snd item)).

(** ** Flattening of provider responses *)

(** [next((tag['Value'] for tag in tags if tag['Key'] == 'Name'), '')]
    once the generator has its iterator: the tags are visited lazily, up
    to the first one whose key is ["Name"]. *)
Fixpoint first_name_tag (tags : list pyval) : result pyval :=
  match tags with
  | [] => Ok (PStr "")
  | tag :: tags' =>
      (k <- getitem tag "Key" ;;
       if py_eq_str k "Name" then getitem tag "Value" else first_name_tag tags')%result
  end.

(** The dict literal of [list_ec2_instances], evaluated key by key. *)
Definition instance_record (aws_region : string) (instance : pyval) : result record :=
  (tags <- getitem instance "Tags" ;;
   it <- py_iter tags ;;
   name <- first_name_tag it ;;
   instance_id <- getitem instance "InstanceId" ;;
   instance_type <- getitem instance "InstanceType" ;;
   os <- getitem instance "PlatformDetails" ;;
   state <- getitem instance "State" ;;
   state_name <- getitem state "Name" ;;
   Ok [("Name", name); ("Instance ID", instance_id); ("Type", instance_type);
       ("OS", os); ("Region", PStr aws_region); ("State", state_name)])%result.

Definition reservation_records (aws_region : string) (reservation : pyval)
  : result (list record) :=
  (instances <- getitem reservation "Instances" ;;
   it <- py_iter instances ;;
   for_each (instance_record aws_region) it)%result.

Definition flatten_ec2_instances (aws_region : string) (instances : pyval)
  : result DataFrame :=
  (reservations <- getitem instances "Reservations" ;;
   it <- py_iter reservations ;;
   per_reservation <- for_each (reservation_records aws_region) it ;;
   Ok (pd_DataFrame (concat per_reservation)))%result.

Definition volume_record (aws_region : string) (volume : pyval) : result record :=
  (volume_id <- getitem volume "VolumeId" ;;
   size <- getitem volume "Size" ;;
   state <- getitem volume "State" ;;
   Ok [("Volume ID", volume_id); ("Size", size); ("State", state);
       ("Region", PStr aws_region)])%result.

Definition flatten_ec2_volumes (aws_region : string) (volumes : pyval)
  : result DataFrame :=
  (items <- getitem volumes "Volumes" ;;
   it <- py_iter items ;;
   volumes_data <- for_each (volume_record aws_region) it ;;
   Ok (pd_DataFrame volumes_data))%result.

Definition snapshot_record (aws_region : string) (snapshot : pyval) : result record :=
  (snapshot_id <- getitem snapshot "SnapshotId" ;;
   volume_size <- getitem snapshot "VolumeSize" ;;
   state <- getitem snapshot "State" ;;
   Ok [("Snapshot ID", snapshot_id); ("Volume Size", volume_size); ("State", state);
       ("Region", PStr aws_region)])%result.

Definition flatten_ec2_snapshots (aws_region : string) (snapshots : pyval)
  : result DataFrame :=
  (items <- getitem snapshots "Snapshots" ;;
   it <- py_iter items ;;
   snapshots_data <- for_each (snapshot_record aws_region) it ;;
   Ok (pd_DataFrame snapshots_data))%result.

Definition bucket_record (bucket : pyval) : result record :=
  (name <- getitem bucket "Name" ;;
   Ok [("Bucket Name", name)])%result.

Definition flatten_s3_buckets (buckets : pyval) : result DataFrame :=
  (items <- getitem buckets "Buckets" ;;
   it <- py_iter items ;;
   buckets_data <- for_each bucket_record it ;;
   Ok (pd_DataFrame buckets_data))%result.

Definition rds_record (instance : pyval) : result record :=
  (identifier <- getitem instance "DBInstanceIdentifier" ;;
   engine <- getitem instance "Engine" ;;
   Ok [("DB Instance Identifier", identifier); ("DB Engine", engine)])%result.

Definition flatten_rds_instances (instances : pyval) : result DataFrame :=
  (items <- getitem instances "DBInstances" ;;
   it <- py_iter items ;;
   instances_data <- for_each rds_record it ;;
   Ok (pd_DataFrame instances_data))%result.

Definition cluster_record (name : pyval) : result record :=
  Ok [("Cluster Name", name)].

Definition flatten_eks_clusters (clusters : pyval) : result DataFrame :=
  (items <- getitem clusters "clusters" ;;
   it <- py_iter items ;;
   clusters_data <- for_each cluster_record it ;;
   Ok (pd_DataFrame clusters_data))%result.

(** ** The world: files, provider calls, open spreadsheet writers *)

Abbreviation workbook := (list (string * sheet)).

Inductive file : Type :=
| Text (content : string)
| Xlsx (book : workbook).

(** The boto3 client of [get_boto_client]. *)
Record client : Type := mkClient {
  c_service_name : string;
  c_region_name : string;
  c_aws_access_key_id : pyval;
  c_aws_secret_access_key : pyval
}.

(** One call of a client method with its keyword arguments. *)
Record request : Type := mkRequest {
  rq_client : client;
  rq_operation : string;
  rq_kwargs : list (string * pyval)
}.

(** What differs from one spreadsheet engine to the other, beyond the
    sheets it accepts:
    - the exception of [ExcelWriter(filename)] when the destination does
      not open ([ValueError] when no engine handles the extension,
      [OSError] when the path cannot be opened for writing);
    - the sheets a refused sheet leaves in the book (none, a stray
      default-titled sheet when the engine creates the sheet before it
      checks the title, as openpyxl does, or the part of the sheet
      written before a cell was refused);
    - what saving a book without any sheet gives: the book written in
      its place (xlsxwriter adds a default sheet), or the exception of
      the save (openpyxl raises [IndexError]). *)
Record engine : Type := mkEngine {
  open_error : string -> exn;
  stray_sheets : workbook -> string -> DataFrame -> workbook;
  empty_book : result workbook
}.

(** The save of [writer.close()]: a book with sheets is written as it
    is. *)
Definition save_book (eng : engine) (book : workbook) : result workbook :=
  match book with
  | [] => empty_book eng
  | _ :: _ => Ok book
  end.

Record world : Type := mkWorld {
  w_fs : gmap string file;               (* path -> content *)
  w_calls : list request;                (* provider calls, oldest first *)
  w_writers : list (string * workbook)   (* open ExcelWriter handles, innermost first *)
}.

Definition M (A : Type) : Type := world -> result A * world.

Definition ret {A} (a : A) : M A := fun w => (Ok a, w).
Definition raise {A} (e : exn) : M A := fun w => (Raise e, w).
Definition lift {A} (r : result A) : M A := fun w => (r, w).

Definition bindM {A B} (m : M A) (k : A -> M B) : M B :=
  fun w =>
    match m w with
    | (Ok a, w') => k a w'
    | (Raise e, w') => (Raise e, w')
    end.

Declare Scope M_scope.
Delimit Scope M_scope with M.
Notation "x <~ e ;; k" := (bindM e (fun x => k))
  (at level 100, e at next level, right associativity) : M_scope.

(** [for x in l: acc = step(acc, x)] *)
Fixpoint for_loop {A S} (step : S -> A -> M S) (l : list A) (acc : S) : M S :=
  match l with
  | [] => ret acc
  | x :: l' => (acc' <~ step acc x ;; for_loop step l' acc')%M
  end.

(** The credentials held by the collector. *)
Record AWSInventory : Type := mkAWSInventory {
  aws_access_key_id : pyval;
  aws_secret_access_key : pyval
}.

Section Program.

(** The provider behind boto3: the response (or failure) of every call. *)
Variable aws : request -> result pyval.
(** [yaml.load(file, Loader=yaml.FullLoader)] on the text of a file. *)
Variable yaml_load : string -> result pyval.
(** Whether [ExcelWriter(filename)] can open its destination, whether
    the engine accepts a sheet (name restrictions of the file format),
    and the other traits of the engine. *)
Variable writer_opens : string -> bool.
Variable sheet_writes : string -> DataFrame -> bool.
Variable eng : engine.

(** *** utils.py *)

Definition load_yaml (file_path : string) : M pyval :=
  fun w =>
    match w_fs w !! file_path with
    | None => (Raise (FileNotFoundError file_path), w)
    | Some (Xlsx _) => (Raise UnicodeDecodeError, w)
    | Some (Text content) => (yaml_load content, w)
    end.

(** *** class AWSInventory *)

Definition AWSInventory__init__ (aws_config_file : string) : M AWSInventory :=
  (aws_credentials <~ load_yaml aws_config_file ;;
   key_id <~ lift (getitem aws_credentials "AWS_ACCESS_KEY_ID") ;;
   secret <~ lift (getitem aws_credentials "AWS_SECRET_ACCESS_KEY") ;;
   ret (mkAWSInventory key_id secret))%M.

Definition get_boto_client (self : AWSInventory) (service_name region_name : string)
  : client :=
  mkClient service_name region_name (aws_access_key_id self) (aws_secret_access_key self).

(** A client method call: recorded, then answered by the provider. *)
Definition invoke (c : client) (operation : string) (kwargs : list (string * pyval))
  : M pyval :=
  fun w =>
    let rq := mkRequest c operation kwargs in
    (aws rq, mkWorld (w_fs w) (w_calls w ++ [rq]) (w_writers w)).

Definition list_ec2_instances (self : AWSInventory) (aws_region : string) : M DataFrame :=
  (instances <~ invoke (get_boto_client self "ec2" aws_region) "describe_instances" [] ;;
   lift (flatten_ec2_instances aws_region instances))%M.

Definition list_ec2_volumes (self : AWSInventory) (aws_region : string) : M DataFrame :=
  (volumes <~ invoke (get_boto_client self "ec2" aws_region) "describe_volumes" [] ;;
   lift (flatten_ec2_volumes aws_region volumes))%M.

Definition list_ec2_snapshots (self : AWSInventory) (aws_region : string) : M DataFrame :=
  (snapshots <~ invoke (get_boto_client self "ec2" aws_region) "describe_snapshots"
                  [("OwnerIds", PList [PStr "self"])] ;;
   lift (flatten_ec2_snapshots aws_region snapshots))%M.

Definition list_s3_buckets (self : AWSInventory) : M DataFrame :=
  (buckets <~ invoke (get_boto_client self "s3" "us-east-1") "list_buckets" [] ;;
   lift (flatten_s3_buckets buckets))%M.

Definition list_rds_instances (self : AWSInventory) (aws_region : string) : M DataFrame :=
  (instances <~ invoke (get_boto_client self "rds" aws_region) "describe_db_instances" [] ;;
   lift (flatten_rds_instances instances))%M.

Definition list_eks_clusters (self : AWSInventory) (aws_region : string) : M DataFrame :=
  (clusters <~ invoke (get_boto_client self "eks" aws_region) "list_clusters" [] ;;
   lift (flatten_eks_clusters clusters))%M.

(** *** The report writer *)

(** [ExcelWriter(filename).__enter__]: the destination is opened for
    writing (and so truncated) and the writer starts with an empty book. *)
Definition ExcelWriter_enter (filename : string) : M unit :=
  fun w =>
    if writer_opens filename
    then (Ok tt, mkWorld (<[filename := Xlsx []]> (w_fs w)) (w_calls w)
                         ((filename, []) :: w_writers w))
    else (Raise (open_error eng filename), w).

(** [writer.__exit__], that is [writer.close()]: the save, then the
    release of the handle.  When the save raises, the release is not
    reached: the handle stays open, the destination stays as opening it
    left it, and the exception of the save is the exception of
    [__exit__]. *)
Definition ExcelWriter_exit : M unit :=
  fun w =>
    match w_writers w with
    | [] => (Ok tt, w)
    | (filename, book) :: writers =>
        match save_book eng book with
        | Ok saved =>
            (Ok tt, mkWorld (<[filename := Xlsx saved]> (w_fs w)) (w_calls w) writers)
        | Raise e => (Raise e, w)
        end
    end.

(** [with ExcelWriter(filename) as writer: body]: [__exit__] runs however
    the body ends.  An exception of the body is raised again after it,
    unless [__exit__] raises itself: then that exception takes its
    place. *)
Definition with_ExcelWriter {A} (filename : string) (body : M A) : M A :=
  fun w =>
    match ExcelWriter_enter filename w with
    | (Raise e, w1) => (Raise e, w1)
    | (Ok _, w1) =>
        let (r, w2) := body w1 in
        match ExcelWriter_exit w2 with
        | (Ok _, w3) => (r, w3)
        | (Raise e, w3) => (Raise e, w3)
        end
    end.

(** [df.to_excel(writer, sheet_name=sheet_name)] on the innermost writer:
    an accepted sheet is added to the book under its name; a refused one
    raises and leaves the book as the engine leaves it. *)
Definition to_excel (df : DataFrame) (sheet_name : string) : M unit :=
  fun w =>
    match w_writers w with
    | [] => (Raise ValueError, w)
    | (filename, book) :: writers =>
        if sheet_writes sheet_name df
        then (Ok tt, mkWorld (w_fs w) (w_calls w)
                             ((filename, book ++ [(sheet_name, to_sheet df)]) :: writers))
        else (Raise (ExcelError sheet_name),
              mkWorld (w_fs w) (w_calls w)
                      ((filename, book ++ stray_sheets eng book sheet_name df) :: writers))
    end.

Definition save_to_excel (dataframe_dict : list (string * DataFrame)) (filename : string)
  : M unit :=
  with_ExcelWriter filename
    (for_loop (fun _ item => to_excel (snd item) (fst item)) dataframe_dict tt).

(** *** The entry point *)

Definition regions : list string := ["us-east-1"; "eu-west-1"; "sa-east-1"].

(** The accumulators the region loop updates: EC2, RDS, volumes, snapshots. *)
Record tables : Type := mkTables {
  all_ec2_data : DataFrame;
  all_rds_data : DataFrame;
  all_volumes_data : DataFrame;
  all_snapshots_data : DataFrame
}.

Definition region_step (inventory : AWSInventory) (acc : tables) (region : string)
  : M tables :=
  (df_ec2 <~ list_ec2_instances inventory region ;;
   df_rds <~ list_rds_instances inventory region ;;
   df_volumes <~ list_ec2_volumes inventory region ;;
   df_snapshots <~ list_ec2_snapshots inventory region ;;
   ret (mkTables (pd_concat (all_ec2_data acc) df_ec2)
                 (pd_concat (all_rds_data acc) df_rds)
                 (pd_concat (all_volumes_data acc) df_volumes)
                 (pd_concat (all_snapshots_data acc) df_snapshots)))%M.

(** Everything [__main__] does before it calls the writer: the output
    path and the assembled [df_dict].  The EKS listing and the ['EKS']
    entry are commented out in the source and have no counterpart here;
    [all_eks_data] and [all_s3_data] are assigned and never read, and
    [os.chdir] only fixes the directory the two paths are relative to. *)
Definition assemble (argv : list string) : M (string * list (string * DataFrame)) :=
  (output_file <~ lift (match nth_error argv 1 with
                        | Some a => Ok a
                        | None => Raise IndexError
                        end) ;;
   inventory <~ AWSInventory__init__ "aws_credentials.yml" ;;
   acc <~ for_loop (region_step inventory) regions
            (mkTables pd_DataFrame_empty pd_DataFrame_empty
                      pd_DataFrame_empty pd_DataFrame_empty) ;;
   df_s3 <~ list_s3_buckets inventory ;;
   ret (output_file,
        [("EC2", all_ec2_data acc);
         ("RDS", all_rds_data acc);
         ("EC2-Volumes", all_volumes_data acc);
         ("EC2-Snapshots", all_snapshots_data acc);
         ("S3-Buckets", df_s3)]))%M.

Definition main (argv : list string) : M unit :=
  (job <~ assemble argv ;;
   save_to_excel (snd job) (fst job))%M.

End Program.

(** The book the sheet loop of [save_to_excel] builds from [book], and
    how the loop ends: at the first refused sheet, or after the last. *)
Fixpoint write_sheets (sheet_writes : string -> DataFrame -> bool) (eng : engine)
    (items : list (string * DataFrame)) (book : workbook) : result unit * workbook :=
  match items with
  | [] => (Ok tt, book)
  | (sheet_name, df) :: items' =>
      if sheet_writes sheet_name df
      then write_sheets sheet_writes eng items' (book ++ [(sheet_name, to_sheet df)])
      else (Raise (ExcelError sheet_name), book ++ stray_sheets eng book sheet_name df)
  end.

(** ** The six resource kinds *)

Inductive resource_kind : Type :=
| ComputeInstance | Volume | Snapshot | Bucket | DatabaseInstance | Cluster.

(** The listing operation of each kind (the bucket listing takes no
    region). *)
Definition list_resources (aws : request -> result pyval) (k : resource_kind)
    (self : AWSInventory) (aws_region : string) : M DataFrame :=
  match k with
  | ComputeInstance => list_ec2_instances aws self aws_region
  | Volume => list_ec2_volumes aws self aws_region
  | Snapshot => list_ec2_snapshots aws self aws_region
  | Bucket => list_s3_buckets aws self
  | DatabaseInstance => list_rds_instances aws self aws_region
  | Cluster => list_eks_clusters aws self aws_region
  end.

(** The keys of the dict literal each operation appends. *)
Definition fixed_columns (k : resource_kind) : list string :=
  match k with
  | ComputeInstance => ["Name"; "Instance ID"; "Type"; "OS"; "Region"; "State"]
  | Volume => ["Volume ID"; "Size"; "State"; "Region"]
  | Snapshot => ["Snapshot ID"; "Volume Size"; "State"; "Region"]
  | Bucket => ["Bucket Name"]
  | DatabaseInstance => ["DB Instance Identifier"; "DB Engine"]
  | Cluster => ["Cluster Name"]
  end.

(** The items of a response: what the loop of the operation iterates
    over (for compute instances, the instances of all reservations). *)
Definition items_under (key : string) (response : pyval) : result (list pyval) :=
  (items <- getitem response key ;; py_iter items)%result.

Definition response_items (k : resource_kind) (response : pyval) : result (list pyval) :=
  match k with
  | ComputeInstance =>
      (reservations <- items_under "Reservations" response ;;
       per_reservation <- for_each (items_under "Instances") reservations ;;
       Ok (concat per_reservation))%result
  | Volume => items_under "Volumes" response
  | Snapshot => items_under "Snapshots" response
  | Bucket => items_under "Buckets" response
  | DatabaseInstance => items_under "DBInstances" response
  | Cluster => items_under "clusters" response
  end.

(** The record the operation builds for one item. *)
Definition item_record (k : resource_kind) (aws_region : string)
  : pyval -> result record :=
  match k with
  | ComputeInstance => instance_record aws_region
  | Volume => volume_record aws_region
  | Snapshot => snapshot_record aws_region
  | Bucket => bucket_record
  | DatabaseInstance => rds_record
  | Cluster => cluster_record
  end.

(** A tag list without a ["Name"] tag: every tag has a key, and no key is
    the string ["Name"]. *)
Definition no_name_tag (tags : list pyval) : Prop :=
  Forall (fun tag => exists k, getitem tag "Key" = Ok k /\ k <> PStr "Name") tags.

(** A table carries the default row index when its row labels are
    [0 .. n-1]. *)
Definition default_index (df : DataFrame) : Prop :=
  df_index df = RangeIndex (length (df_rows df)).

Definition default_indexes (acc : tables) : Prop :=
  default_index (all_ec2_data acc) /\ default_index (all_rds_data acc) /\
  default_index (all_volumes_data acc) /\ default_index (all_snapshots_data acc).

(** ** A sample account, for concrete runs *)

Module Sample.

Definition config_text : string :=
  "AWS_ACCESS_KEY_ID: AKIA_TEST
AWS_SECRET_ACCESS_KEY: secret_test".

Definition config_without_secret : string := "AWS_ACCESS_KEY_ID: AKIA_TEST".

(** The parser, tabulated on the two documents above. *)
Definition yaml_load (text : string) : result pyval :=
  if String.eqb text config_text
  then Ok (PDict [("AWS_ACCESS_KEY_ID", PStr "AKIA_TEST");
                  ("AWS_SECRET_ACCESS_KEY", PStr "secret_test")])
  else if String.eqb text config_without_secret
  then Ok (PDict [("AWS_ACCESS_KEY_ID", PStr "AKIA_TEST")])
  else Raise YAMLError.

Definition inventory : AWSInventory :=
  mkAWSInventory (PStr "AKIA_TEST") (PStr "secret_test").

Definition instance (tags : list pyval) (id : string) : pyval :=
  PDict [("InstanceId", PStr id); ("InstanceType", PStr "t3.micro");
         ("PlatformDetails", PStr "Linux/UNIX");
         ("State", PDict [("Code", PInt 16); ("Name", PStr "running")]);
         ("Tags", PList tags)].

Definition tag (k v : string) : pyval := PDict [("Key", PStr k); ("Value", PStr v)].

Definition web_1 : pyval := instance [tag "env" "prod"; tag "Name" "web-1"] "i-01".
Definition unnamed : pyval := instance [tag "env" "test"] "i-02".
(** What the provider sends for an instance without tags: no ["Tags"]. *)
Definition untagged : pyval :=
  PDict [("InstanceId", PStr "i-03"); ("InstanceType", PStr "t3.micro");
         ("PlatformDetails", PStr "Linux/UNIX");
         ("State", PDict [("Code", PInt 16); ("Name", PStr "running")])].

Definition volume (id : string) (size : Z) : pyval :=
  PDict [("VolumeId", PStr id); ("Size", PInt size); ("State", PStr "in-use")].

Definition snapshot (id : string) (size : Z) : pyval :=
  PDict [("SnapshotId", PStr id); ("VolumeSize", PInt size); ("State", PStr "completed")].

(** Two instances and a volume in us-east-1, a snapshot in eu-west-1,
    nothing in sa-east-1, no database, one bucket. *)
Definition aws (rq : request) : result pyval :=
  let region := c_region_name (rq_client rq) in
  let op := rq_operation rq in
  if String.eqb op "describe_instances" then
    Ok (PDict [("Reservations",
                PList (if String.eqb region "us-east-1"
                       then [PDict [("Instances", PList [web_1; unnamed])]]
                       else []))])
  else if String.eqb op "describe_volumes" then
    Ok (PDict [("Volumes", PList (if String.eqb region "us-east-1"
                                  then [volume "vol-01" 8] else []))])
  else if String.eqb op "describe_snapshots" then
    Ok (PDict [("Snapshots", PList (if String.eqb region "eu-west-1"
                                    then [snapshot "snap-01" 8] else []))])
  else if String.eqb op "describe_db_instances" then
    Ok (PDict [("DBInstances", PList [])])
  else if String.eqb op "list_buckets" then
    Ok (PDict [("Buckets", PList [PDict [("Name", PStr "logs-bucket")]])])
  else if String.eqb op "list_clusters" then
    Ok (PDict [("clusters", PList [])])
  else Raise (ClientError "UnknownOperation").

(** A provider with an instance that has no tags at all. *)
Definition aws_untagged (rq : request) : result pyval :=
  Ok (PDict [("Reservations", PList [PDict [("Instances", PList [web_1; untagged])]])]).

(** The engine: every destination opens; a sheet name is accepted up to
    31 characters. *)
Definition writer_opens (filename : string) : bool := true.
Definition sheet_writes (sheet_name : string) (df : DataFrame) : bool :=
  Nat.leb (String.length sheet_name) 31.

(** An engine in the manner of xlsxwriter: a refused sheet leaves no
    trace, and a book without sheets is saved with one default sheet. *)
Definition xlsxwriter : engine :=
  mkEngine (fun filename => OSError filename) (fun _ _ _ => []) (Ok [("Sheet1", [])]).




Definition w0 : world :=
  mkWorld {["aws_credentials.yml" := Text config_text]} [] [].

Definition w_without_secret : world :=
  mkWorld {["aws_credentials.yml" := Text config_without_secret]} [] [].






Definition argv : list string := ["aws_inventory.py"; "output.xlsx"].

(** The tables the run on this account assembles. *)
Definition report_tables : list (string * DataFrame) :=
  match fst (assemble aws yaml_load argv w0) with
  | Ok job => snd job
  | Raise _ => []
  end.

End Sample.

(** ** The calls of a run *)

(** The client call each operation makes: service, region, method and
    keyword arguments, with the credentials of the collector. *)
Definition issued_request (k : resource_kind) (self : AWSInventory) (aws_region : string)
  : request :=
  match k with
  | ComputeInstance =>
      mkRequest (get_boto_client self "ec2" aws_region) "describe_instances" []
  | Volume => mkRequest (get_boto_client self "ec2" aws_region) "describe_volumes" []
  | Snapshot =>
      mkRequest (get_boto_client self "ec2" aws_region) "describe_snapshots"
        [("OwnerIds", PList [PStr "self"])]
  | Bucket => mkRequest (get_boto_client self "s3" "us-east-1") "list_buckets" []
  | DatabaseInstance =>
      mkRequest (get_boto_client self "rds" aws_region) "describe_db_instances" []
  | Cluster => mkRequest (get_boto_client self "eks" aws_region) "list_clusters" []
  end.

(** The calls of one pass of the region loop, in the order of its body. *)
Definition region_calls (self : AWSInventory) (region : string) : list request :=
  [issued_request ComputeInstance self region;
   issued_request DatabaseInstance self region;
   issued_request Volume self region;
   issued_request Snapshot self region].

(** The calls of a whole run: the region loop, then the bucket listing. *)
Definition run_calls (self : AWSInventory) : list request :=
  flat_map (region_calls self) regions ++ [issued_request Bucket self "us-east-1"].

Definition add_calls (calls : list request) (w : world) : world :=
  mkWorld (w_fs w) (w_calls w ++ calls) (w_writers w).

(** [m] only talks to the provider, and follows the script [calls]: from
    any world it logs a prefix of [calls], the whole of it when it ends
    without exception, and changes nothing else. *)
Definition logs {A} (m : M A) (calls : list request) : Prop :=
  forall w, exists made rest,
    calls = made ++ rest /\
    snd (m w) = add_calls made w /\
    (forall a, fst (m w) = Ok a -> rest = []).

(** The rows an operation returns for a region ([w] is any world: the
    provider, not the world, decides the answer). *)
Definition region_rows (aws : request -> result pyval) (k : resource_kind)
    (self : AWSInventory) (w : world) (region : string) : list record :=
  match fst (list_resources aws k self region w) with
  | Ok df => df_rows df
  | Raise _ => []
  end.

(** A table of kind [k] is either bare (no rows, no columns) or has the
    columns of its kind. *)
Definition table_shape (k : resource_kind) (df : DataFrame) : Prop :=
  df_columns df = match df_rows df with
                  | [] => []
                  | _ :: _ => fixed_columns k
                  end.

Definition tables_shape (acc : tables) : Prop :=
  table_shape ComputeInstance (all_ec2_data acc) /\
  table_shape DatabaseInstance (all_rds_data acc) /\
  table_shape Volume (all_volumes_data acc) /\
  table_shape Snapshot (all_snapshots_data acc).

(** The keys of an item the record of its kind reads, in reading order
    (a cluster is a bare name; the compute instance reads nested values
    and is not listed). *)
Definition source_fields (k : resource_kind) : list string :=
  match k with
  | Volume => ["VolumeId"; "Size"; "State"]
  | Snapshot => ["SnapshotId"; "VolumeSize"; "State"]
  | Bucket => ["Name"]
  | DatabaseInstance => ["DBInstanceIdentifier"; "Engine"]
  | ComputeInstance | Cluster => []
  end.

Definition first_missing (fields : list string) (d : list (string * pyval))
  : option string :=
  List.find (fun f => match dict_get f d with None => true | Some _ => false end) fields.

(** ** PyYAML on flat documents *)

(** [yaml.load(file, Loader=yaml.FullLoader)] on the documents of one
    form: lines [KEY: value] separated by a line feed, with an optional
    last line feed, where [KEY] is made of at most 1024 letters, digits
    and [_], does not start with a digit and is not a boolean or null
    word, and [value]
    is a non-empty run of letters and digits.  Such a document is a block
    mapping of plain scalars; a plain scalar is resolved by PyYAML's
    implicit resolvers, of which three can match a run of letters and
    digits: bool, int and null. *)






















(** * Properties *)

(** ** The result monad and the loops *)

Lemma bind_Ok {A B} (r : result A) (k : A -> result B) (b : B) :
  bind r k = Ok b -> exists a, r = Ok a /\ k a = Ok b.
Proof. destruct r as [a|e]; simpl; [eauto | discriminate]. Qed.

Lemma for_each_Ok {A B} (f : A -> result B) (l : list A) (ys : list B) :
  for_each f l = Ok ys -> Forall2 (fun x y => f x = Ok y) l ys.
Proof.
  revert ys. induction l as [|x l IH]; simpl; intros ys H.
  - injection H as <-. constructor.
  - apply bind_Ok in H as (y & Hy & H).
    apply bind_Ok in H as (ys' & Hys & H).
    injection H as <-. constructor; auto.
Qed.

Lemma for_each_app {A B} (f : A -> result B) (l1 l2 : list A) :
  for_each f (l1 ++ l2) =
  (ys1 <- for_each f l1 ;; ys2 <- for_each f l2 ;; Ok (ys1 ++ ys2))%result.
Proof.
  induction l1 as [|x l1 IH]; simpl.
  - destruct (for_each f l2); reflexivity.
  - destruct (f x) as [y|e]; simpl; [|reflexivity].
    rewrite IH. destruct (for_each f l1) as [ys1|e]; simpl; [|reflexivity].
    destruct (for_each f l2); reflexivity.
Qed.

Lemma for_each_Forall2 {A B} (f : A -> result B) (l : list A) (ys : list B) :
  Forall2 (fun x y => f x = Ok y) l ys -> for_each f l = Ok ys.
Proof.
  induction 1 as [|x y l ys Hxy _ IH]; simpl; [reflexivity|].
  rewrite Hxy; simpl. rewrite IH. reflexivity.
Qed.

Lemma Forall2_concat_lists {A B} (P : A -> B -> Prop) (ls : list (list A))
    (ks : list (list B)) :
  Forall2 (Forall2 P) ls ks -> Forall2 P (concat ls) (concat ks).
Proof.
  induction 1 as [|l k ls ks Hlk _ IH]; simpl; [constructor|].
  apply Forall2_app; assumption.
Qed.

(** ** pandas: columns, index, concatenation *)

Lemma add_column_known (cols : list string) (c : string) :
  In c cols -> add_column cols c = cols.
Proof.
  intros Hin. unfold add_column.
  replace (existsb (String.eqb c) cols) with true; [reflexivity|].
  symmetry. apply existsb_exists. exists c. split; [assumption|].
  apply String.eqb_refl.
Qed.

Lemma union_columns_known (cols ks : list string) :
  incl ks cols -> union_columns cols ks = cols.
Proof.
  unfold union_columns. induction ks as [|c ks IH]; simpl; intros Hincl.
  - reflexivity.
  - rewrite add_column_known by (apply Hincl; left; reflexivity).
    apply IH. intros x Hx. apply Hincl. right. assumption.
Qed.

(** The columns of a table built from records that all have the same
    keys [ks] are [ks], as soon as there is one record. *)
Lemma pd_DataFrame_columns (ks : list string) (data : list record) :
  union_columns [] ks = ks ->
  data <> [] ->
  Forall (fun r => map fst r = ks) data ->
  df_columns (pd_DataFrame data) = ks.
Proof.
  intros Hks Hne Hall. destruct data as [|r data]; [congruence|].
  apply Forall_cons_iff in Hall as [Hr Hall]. simpl. rewrite Hr, Hks.
  clear Hr Hne r. induction Hall as [|r data Hr _ IH]; simpl; [reflexivity|].
  rewrite Hr, union_columns_known by apply incl_refl. exact IH.
Qed.

Lemma length_RangeIndex (n : nat) : length (RangeIndex n) = n.
Proof. unfold RangeIndex. rewrite length_map, length_seq. reflexivity. Qed.

Lemma lookup_RangeIndex (n i : nat) :
  (i < n)%nat -> RangeIndex n !! i = Some (Z.of_nat i).
Proof.
  intros Hi. unfold RangeIndex. rewrite list_lookup_fmap.
  rewrite lookup_seq_lt by assumption. reflexivity.
Qed.

Lemma default_index_empty : default_index pd_DataFrame_empty.
Proof. reflexivity. Qed.

Lemma default_index_DataFrame (data : list record) : default_index (pd_DataFrame data).
Proof. reflexivity. Qed.

Lemma default_index_concat (a b : DataFrame) : default_index (pd_concat a b).
Proof. reflexivity. Qed.

(** Row [i] of the table is row [i+1] of its sheet (below the header):
    the row label [i], then the cells in column order. *)
Lemma to_sheet_row (df : DataFrame) (i : nat) (r : record) :
  default_index df ->
  df_rows df !! i = Some r ->
  to_sheet df !! S i = Some (Some (PInt (Z.of_nat i)) :: map (cell r) (df_columns df)).
Proof.
  intros Hidx Hr. unfold to_sheet. simpl.
  rewrite list_lookup_fmap.
  assert (Hi : (i < length (df_rows df))%nat) by (eapply lookup_lt_Some; eassumption).
  assert (Hz : zip (df_index df) (df_rows df) !! i = Some (Z.of_nat i, r)).
  { apply lookup_zip_with_Some. exists (Z.of_nat i), r. split; [reflexivity|].
    split; [|assumption]. rewrite Hidx. apply lookup_RangeIndex. assumption. }
  rewrite Hz. reflexivity.
Qed.

Lemma to_sheet_header (df : DataFrame) :
  to_sheet df !! 0%nat = Some (None :: map (fun c => Some (PStr c)) (df_columns df)).
Proof. reflexivity. Qed.

(** C4. Concatenating two per-region tables, as the region loop does
    with [pd.concat([a, b], ignore_index=True)], gives a table whose row
    count is the sum of the two row counts; its first rows are the rows
    of the first table, in their order, and the rows after them are the
    rows of the second table, in their order. *)
Theorem pd_concat_rows (a b : DataFrame) :
  length (df_rows (pd_concat a b)) = (length (df_rows a) + length (df_rows b))%nat /\
  take (length (df_rows a)) (df_rows (pd_concat a b)) = df_rows a /\
  drop (length (df_rows a)) (df_rows (pd_concat a b)) = df_rows b.
Proof.
  simpl. split; [apply length_app|]. split.
  - apply take_app_length.
  - apply drop_app_length.
Qed.

(** ** Flattening: the rows of a table are the records of the items *)

Lemma flatten_rows (key : string) (f : pyval -> result record) (response : pyval)
    (df : DataFrame) :
  (items <- getitem response key ;;
   it <- py_iter items ;;
   data <- for_each f it ;;
   Ok (pd_DataFrame data))%result = Ok df ->
  exists items,
    items_under key response = Ok items /\
    Forall2 (fun item r => f item = Ok r) items (df_rows df) /\
    df = pd_DataFrame (df_rows df).
Proof.
  intros H. unfold items_under.
  apply bind_Ok in H as (v & Hv & H). rewrite Hv. simpl.
  apply bind_Ok in H as (it & Hit & H). rewrite Hit.
  apply bind_Ok in H as (data & Hdata & H). injection H as <-.
  exists it. split; [reflexivity|]. split; [|reflexivity].
  simpl. apply for_each_Ok. assumption.
Qed.

Lemma reservation_rows (aws_region : string) (rs : list pyval)
    (per_reservation : list (list record)) :
  for_each (reservation_records aws_region) rs = Ok per_reservation ->
  exists per_items,
    for_each (items_under "Instances") rs = Ok per_items /\
    Forall2 (Forall2 (fun item r => instance_record aws_region item = Ok r))
            per_items per_reservation.
Proof.
  revert per_reservation. induction rs as [|r rs IH]; simpl; intros per H.
  - injection H as <-. exists []. split; [reflexivity|constructor].
  - apply bind_Ok in H as (recs & Hrecs & H).
    apply bind_Ok in H as (per' & Hper & H). injection H as <-.
    destruct (IH _ Hper) as (per_items & Hitems & Hall).
    unfold reservation_records in Hrecs.
    apply bind_Ok in Hrecs as (v & Hv & Hrecs).
    apply bind_Ok in Hrecs as (it & Hit & Hrecs).
    assert (Hr : items_under "Instances" r = Ok it).
    { unfold items_under. rewrite Hv. simpl. assumption. }
    exists (it :: per_items). split.
    + cbn [for_each]. rewrite Hr. cbn [bind]. rewrite Hitems. reflexivity.
    + constructor; [|assumption]. apply for_each_Ok. assumption.
Qed.

(** Every table an operation returns is [pd.DataFrame] of the records of
    the items of the response the provider gave, item by item. *)
Lemma list_resources_rows (aws : request -> result pyval) (k : resource_kind)
    (self : AWSInventory) (aws_region : string) (w : world) (df : DataFrame) :
  fst (list_resources aws k self aws_region w) = Ok df ->
  exists rq response items,
    aws rq = Ok response /\
    response_items k response = Ok items /\
    Forall2 (fun item r => item_record k aws_region item = Ok r) items (df_rows df) /\
    df = pd_DataFrame (df_rows df).
Proof.
  destruct k; simpl;
    unfold list_ec2_instances, list_ec2_volumes, list_ec2_snapshots, list_s3_buckets,
      list_rds_instances, list_eks_clusters, bindM, invoke, lift;
    match goal with |- context [aws ?r] => destruct (aws r) as [response|e] eqn:Haws end;
    simpl; try discriminate; intros H;
    match type of Haws with aws ?r = _ => exists r, response end.
  2-6: apply flatten_rows in H as (items & Hitems & Hall & Hdf);
       exists items; auto.
  unfold flatten_ec2_instances in H.
  apply bind_Ok in H as (v & Hv & H).
  apply bind_Ok in H as (rs & Hrs & H).
  apply bind_Ok in H as (per & Hper & H). injection H as <-.
  apply reservation_rows in Hper as (per_items & Hitems & Hall).
  assert (Hr : items_under "Reservations" response = Ok rs).
  { unfold items_under. rewrite Hv. simpl. assumption. }
  exists (concat per_items). split; [assumption|]. split.
  - cbn [response_items]. rewrite Hr. cbn [bind]. rewrite Hitems. reflexivity.
  - split; [|reflexivity]. simpl. apply Forall2_concat_lists. assumption.
Qed.

Lemma reservation_records_items (aws_region : string) (r : pyval) (its : list pyval) :
  items_under "Instances" r = Ok its ->
  reservation_records aws_region r = for_each (instance_record aws_region) its.
Proof.
  unfold items_under, reservation_records. intros H.
  apply bind_Ok in H as (v & Hv & Hit). rewrite Hv. cbn [bind]. rewrite Hit.
  reflexivity.
Qed.

Lemma reservations_eq (aws_region : string) (rs : list pyval)
    (per_items : list (list pyval)) :
  for_each (items_under "Instances") rs = Ok per_items ->
  (per_reservation <- for_each (reservation_records aws_region) rs ;;
   Ok (concat per_reservation))%result
  = for_each (instance_record aws_region) (concat per_items).
Proof.
  revert per_items. induction rs as [|r rs IH]; cbn [for_each]; intros per H.
  - injection H as <-. reflexivity.
  - apply bind_Ok in H as (its & Hits & H).
    apply bind_Ok in H as (per' & Hper & H). injection H as <-.
    cbn [concat]. rewrite for_each_app, <- (IH _ Hper).
    rewrite (reservation_records_items _ _ _ Hits).
    destruct (for_each (instance_record aws_region) its) as [rows1|e]; [|reflexivity].
    cbn [bind].
    destruct (for_each (reservation_records aws_region) rs) as [per_res|e]; reflexivity.
Qed.

(** When the provider answers [response], the operation visits the items
    of the response in order, builds the record of each, and returns the
    table of these records; the first record that fails is its failure. *)
Lemma list_resources_eq (k : resource_kind) (response : pyval)
    (items : list pyval) (self : AWSInventory) (aws_region : string) (w : world) :
  response_items k response = Ok items ->
  fst (list_resources (fun _ => Ok response) k self aws_region w)
  = (rows <- for_each (item_record k aws_region) items ;; Ok (pd_DataFrame rows))%result.
Proof.
  intros Hitems.
  destruct k; cbn [response_items item_record] in *.
  2-6: unfold items_under in Hitems;
       apply bind_Ok in Hitems as (v & Hv & Hit); cbn;
       unfold flatten_ec2_volumes, flatten_ec2_snapshots, flatten_s3_buckets,
         flatten_rds_instances, flatten_eks_clusters;
       rewrite Hv; cbn [bind]; rewrite Hit; reflexivity.
  apply bind_Ok in Hitems as (rs & Hrs & Hitems).
  apply bind_Ok in Hitems as (per_items & Hper & Hitems). injection Hitems as <-.
  rewrite <- (reservations_eq aws_region _ _ Hper).
  unfold items_under in Hrs. apply bind_Ok in Hrs as (v & Hv & Hit).
  cbn. unfold flatten_ec2_instances.
  rewrite Hv. cbn [bind]. rewrite Hit. cbn [bind].
  destruct (for_each (reservation_records aws_region) rs); reflexivity.
Qed.

Lemma list_resources_complete (k : resource_kind) (response : pyval)
    (items : list pyval) (rows : list record) (self : AWSInventory)
    (aws_region : string) (w : world) :
  response_items k response = Ok items ->
  for_each (item_record k aws_region) items = Ok rows ->
  fst (list_resources (fun _ => Ok response) k self aws_region w) = Ok (pd_DataFrame rows).
Proof.
  intros Hitems Hrows. rewrite (list_resources_eq _ _ _ _ _ _ Hitems), Hrows.
  reflexivity.
Qed.

(** The loop stops at the first item whose record fails. *)
Lemma for_each_first_failure {A B} (f : A -> result B) (l : list A) (i : nat)
    (x : A) (e : exn) (ys : list B) :
  l !! i = Some x ->
  f x = Raise e ->
  for_each f (take i l) = Ok ys ->
  for_each f l = Raise e.
Proof.
  intros Hx Hfx Hbefore.
  rewrite <- (take_drop_middle l i x Hx), for_each_app.
  rewrite Hbefore. cbn [bind for_each]. rewrite Hfx. reflexivity.
Qed.

Lemma item_record_keys (k : resource_kind) (aws_region : string) (item : pyval)
    (r : record) :
  item_record k aws_region item = Ok r -> map fst r = fixed_columns k.
Proof.
  destruct k; cbn [item_record];
    unfold instance_record, volume_record, snapshot_record, bucket_record, rds_record,
      cluster_record;
    intros H;
    repeat match type of H with
           | bind _ _ = Ok _ => apply bind_Ok in H as (? & _ & H)
           end;
    injection H as <-; reflexivity.
Qed.

(** A table with at least one row has the fixed columns of its kind. *)
Lemma nonempty_table_columns (aws : request -> result pyval) (k : resource_kind)
    (self : AWSInventory) (aws_region : string) (w : world) (df : DataFrame) :
  fst (list_resources aws k self aws_region w) = Ok df ->
  df_rows df <> [] ->
  df_columns df = fixed_columns k.
Proof.
  intros H Hne.
  apply list_resources_rows in H as (rq & response & items & _ & _ & Hall & Hdf).
  rewrite Hdf. apply pd_DataFrame_columns.
  - destruct k; reflexivity.
  - assumption.
  - clear Hdf Hne. induction Hall as [|item r items rows Hr _ IH]; constructor.
    + eapply item_record_keys. eassumption.
    + assumption.
Qed.

(** ** C1: the table of an empty response *)

(** C1 (as amended). For every resource kind and every provider response
    with zero items, the operation returns a table with zero rows and no
    columns at all; when a response has items and the operation returns a
    table, that table has one row per item and the fixed columns of the
    kind. *)
Theorem empty_response_table (k : resource_kind) (response : pyval)
    (items : list pyval) (self : AWSInventory) (aws_region : string) (w : world) :
  response_items k response = Ok items ->
  (items = [] ->
   fst (list_resources (fun _ => Ok response) k self aws_region w)
   = Ok (mkDataFrame [] [] [])) /\
  (forall df,
     fst (list_resources (fun _ => Ok response) k self aws_region w) = Ok df ->
     items <> [] ->
     length (df_rows df) = length items /\ df_columns df = fixed_columns k).
Proof.
  intros Hitems. split.
  - intros ->. apply (list_resources_complete k response [] []); [assumption|reflexivity].
  - intros df Hdf Hne.
    assert (Hlen : length (df_rows df) = length items).
    { apply list_resources_rows in Hdf as (rq & response' & items' & Haws & Hitems' & Hall & _).
      injection Haws as <-. rewrite Hitems in Hitems'. injection Hitems' as <-.
      symmetry. eapply Forall2_length. eassumption. }
    split; [assumption|].
    eapply nonempty_table_columns; [eassumption|].
    intros Hnil. rewrite Hnil in Hlen. destruct items; [congruence|discriminate].
Qed.

Lemma empty_response_table_witness :
  fst (list_resources (fun _ => Ok (PDict [("Volumes", PList [])])) Volume
         Sample.inventory "us-east-1" Sample.w0)
  = Ok (mkDataFrame [] [] []).
Proof.
  refine (proj1 (empty_response_table Volume (PDict [("Volumes", PList [])]) []
                   Sample.inventory "us-east-1" Sample.w0 _) _);
    reflexivity.
Defined.

(** The claim as the spec words it fails for volumes: the table of a
    response without volumes does not have the four volume columns. *)
Lemma empty_volumes_table_lacks_columns :
  ~ (exists df,
       fst (list_ec2_volumes (fun _ => Ok (PDict [("Volumes", PList [])]))
              Sample.inventory "us-east-1" Sample.w0) = Ok df /\
       df_rows df = [] /\
       df_columns df = ["Volume ID"; "Size"; "State"; "Region"]).
Proof.
  intros (df & Hdf & _ & Hcols). vm_compute in Hdf. injection Hdf as <-.
  discriminate Hcols.
Qed.

(** ** C3, C9: the Name of a compute instance *)

Lemma first_name_tag_absent (tags : list pyval) :
  no_name_tag tags -> first_name_tag tags = Ok (PStr "").
Proof.
  induction 1 as [|tag tags (k & Hk & Hne) _ IH]; cbn [first_name_tag]; [reflexivity|].
  rewrite Hk. cbn [bind].
  replace (py_eq_str k "Name") with false; [exact IH|].
  destruct k as [| | |s| | |]; try reflexivity. cbn [py_eq_str].
  symmetry. apply String.eqb_neq. congruence.
Qed.

(** C3. A compute instance whose tag list has no "Name" tag is flattened
    with the empty string as its Name: the tag lookup contributes no
    failure (the record is the rest of the dict literal with Name set to
    the empty string), and in every table the operation returns, the row
    of that instance has the Name cell equal to the empty string. *)
Theorem missing_name_tag_empty_name (response : pyval) (items : list pyval)
    (i : nat) (instance : pyval) (tags : list pyval)
    (self : AWSInventory) (aws_region : string) (w : world) :
  response_items ComputeInstance response = Ok items ->
  items !! i = Some instance ->
  getitem instance "Tags" = Ok (PList tags) ->
  no_name_tag tags ->
  instance_record aws_region instance
  = (instance_id <- getitem instance "InstanceId" ;;
     instance_type <- getitem instance "InstanceType" ;;
     os <- getitem instance "PlatformDetails" ;;
     state <- getitem instance "State" ;;
     state_name <- getitem state "Name" ;;
     Ok [("Name", PStr ""); ("Instance ID", instance_id); ("Type", instance_type);
         ("OS", os); ("Region", PStr aws_region); ("State", state_name)])%result
  /\
  forall df,
    fst (list_ec2_instances (fun _ => Ok response) self aws_region w) = Ok df ->
    exists r, df_rows df !! i = Some r /\ cell r "Name" = Some (PStr "").
Proof.
  intros Hitems Hi Htags Hno.
  assert (Hrec : instance_record aws_region instance
                 = (instance_id <- getitem instance "InstanceId" ;;
                    instance_type <- getitem instance "InstanceType" ;;
                    os <- getitem instance "PlatformDetails" ;;
                    state <- getitem instance "State" ;;
                    state_name <- getitem state "Name" ;;
                    Ok [("Name", PStr ""); ("Instance ID", instance_id);
                        ("Type", instance_type); ("OS", os);
                        ("Region", PStr aws_region); ("State", state_name)])%result).
  { unfold instance_record. rewrite Htags. cbn [bind py_iter].
    rewrite (first_name_tag_absent _ Hno). reflexivity. }
  split; [exact Hrec|].
  intros df Hdf.
  change (list_ec2_instances (fun _ => Ok response) self aws_region)
    with (list_resources (fun _ => Ok response) ComputeInstance self aws_region) in Hdf.
  rewrite (list_resources_eq _ _ _ _ _ _ Hitems) in Hdf.
  apply bind_Ok in Hdf as (rows & Hrows & Hdf). injection Hdf as <-.
  apply for_each_Ok in Hrows.
  destruct (Forall2_lookup_l _ _ _ _ _ Hrows Hi) as (r & Hr & Hok).
  exists r. split; [exact Hr|].
  cbn [item_record] in Hok. rewrite Hrec in Hok.
  repeat match type of Hok with
         | bind _ _ = Ok _ => apply bind_Ok in Hok as (? & _ & Hok)
         end.
  injection Hok as <-. reflexivity.
Qed.

Lemma missing_name_tag_empty_name_witness :
  exists r,
    df_rows (pd_DataFrame
               [[("Name", PStr "web-1"); ("Instance ID", PStr "i-01");
                 ("Type", PStr "t3.micro"); ("OS", PStr "Linux/UNIX");
                 ("Region", PStr "us-east-1"); ("State", PStr "running")];
                [("Name", PStr ""); ("Instance ID", PStr "i-02");
                 ("Type", PStr "t3.micro"); ("OS", PStr "Linux/UNIX");
                 ("Region", PStr "us-east-1"); ("State", PStr "running")]])
      !! 1%nat = Some r /\
    cell r "Name" = Some (PStr "").
Proof.
  refine (proj2 (missing_name_tag_empty_name
                   (PDict [("Reservations",
                            PList [PDict [("Instances",
                                           PList [Sample.web_1; Sample.unnamed])]])])
                   [Sample.web_1; Sample.unnamed] 1 Sample.unnamed
                   [Sample.tag "env" "test"]
                   Sample.inventory "us-east-1" Sample.w0 _ _ _ _) _ _);
    try reflexivity.
  constructor; [|constructor].
  exists (PStr "env"). split; [reflexivity|discriminate].
Defined.

(** C9. A compute instance without any "Tags" entry makes the operation
    fail: its record raises the key-lookup error for "Tags", so the
    operation never returns a table for a response that contains it, and
    the operation raises exactly that error when the instances before it
    have their records. *)
Theorem missing_tags_key_error (response : pyval) (items : list pyval)
    (i : nat) (d : list (string * pyval))
    (self : AWSInventory) (aws_region : string) (w : world) :
  response_items ComputeInstance response = Ok items ->
  items !! i = Some (PDict d) ->
  dict_get "Tags" d = None ->
  instance_record aws_region (PDict d) = Raise (KeyError "Tags") /\
  (forall df,
     fst (list_ec2_instances (fun _ => Ok response) self aws_region w) <> Ok df) /\
  (forall rows,
     for_each (instance_record aws_region) (take i items) = Ok rows ->
     fst (list_ec2_instances (fun _ => Ok response) self aws_region w)
     = Raise (KeyError "Tags")).
Proof.
  intros Hitems Hi Hd.
  assert (Hrec : instance_record aws_region (PDict d) = Raise (KeyError "Tags")).
  { unfold instance_record. cbn [getitem]. rewrite Hd. reflexivity. }
  change (list_ec2_instances (fun _ => Ok response) self aws_region)
    with (list_resources (fun _ => Ok response) ComputeInstance self aws_region).
  rewrite (list_resources_eq _ _ _ _ _ _ Hitems). cbn [item_record].
  split; [exact Hrec|]. split.
  - intros df Hdf. apply bind_Ok in Hdf as (rows & Hrows & _).
    apply for_each_Ok in Hrows.
    destruct (Forall2_lookup_l _ _ _ _ _ Hrows Hi) as (r & _ & Hok).
    congruence.
  - intros rows Hbefore.
    rewrite (for_each_first_failure _ _ _ _ _ _ Hi Hrec Hbefore). reflexivity.
Qed.

Lemma missing_tags_key_error_witness :
  fst (list_ec2_instances Sample.aws_untagged Sample.inventory "us-east-1" Sample.w0)
  = Raise (KeyError "Tags").
Proof.
  refine (proj2 (proj2 (missing_tags_key_error
                          (PDict [("Reservations",
                                   PList [PDict [("Instances",
                                                  PList [Sample.web_1; Sample.untagged])]])])
                          [Sample.web_1; Sample.untagged] 1 _
                          Sample.inventory "us-east-1" Sample.w0 _ _ _)) _ _);
    reflexivity.
Defined.

(** ** C10: the Region column *)

Lemma item_record_region (k : resource_kind) (aws_region : string) (item : pyval)
    (r : record) :
  In k [ComputeInstance; Volume; Snapshot] ->
  item_record k aws_region item = Ok r ->
  cell r "Region" = Some (PStr aws_region).
Proof.
  intros Hk H.
  destruct k; cbn [item_record] in H;
    try (exfalso; cbn in Hk; intuition discriminate);
    unfold instance_record, volume_record, snapshot_record in H;
    repeat match type of H with
           | bind _ _ = Ok _ => apply bind_Ok in H as (? & _ & H)
           end;
    injection H as <-; reflexivity.
Qed.

(** C10. Every record of a table returned by the per-region listing of
    compute instances, of volumes or of snapshots has its Region cell
    equal to the region the operation was called with. *)
Theorem region_column (aws : request -> result pyval) (self : AWSInventory)
    (aws_region : string) (w : world) (df : DataFrame) :
  fst (list_ec2_instances aws self aws_region w) = Ok df \/
  fst (list_ec2_volumes aws self aws_region w) = Ok df \/
  fst (list_ec2_snapshots aws self aws_region w) = Ok df ->
  Forall (fun r => cell r "Region" = Some (PStr aws_region)) (df_rows df).
Proof.
  intros H.
  assert (Hk : exists k, In k [ComputeInstance; Volume; Snapshot] /\
                         fst (list_resources aws k self aws_region w) = Ok df).
  { destruct H as [H|[H|H]];
      [exists ComputeInstance | exists Volume | exists Snapshot];
      (split; [cbn; tauto | exact H]). }
  destruct Hk as (k & Hk & Hdf).
  apply list_resources_rows in Hdf as (rq & response & items & _ & _ & Hall & _).
  induction Hall as [|item r items rows Hr _ IH]; constructor.
  - eapply item_record_region; eassumption.
  - exact IH.
Qed.

Lemma region_column_witness :
  Forall (fun r => cell r "Region" = Some (PStr "us-east-1"))
    [[("Name", PStr "web-1"); ("Instance ID", PStr "i-01"); ("Type", PStr "t3.micro");
      ("OS", PStr "Linux/UNIX"); ("Region", PStr "us-east-1"); ("State", PStr "running")];
     [("Name", PStr ""); ("Instance ID", PStr "i-02"); ("Type", PStr "t3.micro");
      ("OS", PStr "Linux/UNIX"); ("Region", PStr "us-east-1"); ("State", PStr "running")]]
  /\
  Forall (fun r => cell r "Region" = Some (PStr "us-east-1"))
    [[("Volume ID", PStr "vol-01"); ("Size", PInt 8); ("State", PStr "in-use");
      ("Region", PStr "us-east-1")]]
  /\
  Forall (fun r => cell r "Region" = Some (PStr "eu-west-1"))
    [[("Snapshot ID", PStr "snap-01"); ("Volume Size", PInt 8);
      ("State", PStr "completed"); ("Region", PStr "eu-west-1")]].
Proof.
  split; [|split].
  - refine (region_column Sample.aws Sample.inventory "us-east-1" Sample.w0
              (pd_DataFrame _) (or_introl _)).
    reflexivity.
  - refine (region_column Sample.aws Sample.inventory "us-east-1" Sample.w0
              (pd_DataFrame _) (or_intror (or_introl _))).
    reflexivity.
  - refine (region_column Sample.aws Sample.inventory "eu-west-1" Sample.w0
              (pd_DataFrame _) (or_intror (or_intror _))).
    reflexivity.
Defined.

(** ** C5, C6: the configuration *)

Section Configuration.

Variable yaml_load : string -> result pyval.

(** Whatever the parser: when it reads the document as a mapping with
    both required keys, the loader returns that mapping and the collector
    is built with exactly its two values. *)
Theorem load_config_values (path text : string) (d : list (string * pyval))
    (key_id secret : pyval) (w : world) :
  w_fs w !! path = Some (Text text) ->
  yaml_load text = Ok (PDict d) ->
  dict_get "AWS_ACCESS_KEY_ID" d = Some key_id ->
  dict_get "AWS_SECRET_ACCESS_KEY" d = Some secret ->
  load_yaml yaml_load path w = (Ok (PDict d), w) /\
  getitem (PDict d) "AWS_ACCESS_KEY_ID" = Ok key_id /\
  getitem (PDict d) "AWS_SECRET_ACCESS_KEY" = Ok secret /\
  AWSInventory__init__ yaml_load path w = (Ok (mkAWSInventory key_id secret), w).
Proof.
  intros Hfile Hparse Hid Hsecret.
  assert (Hload : load_yaml yaml_load path w = (Ok (PDict d), w)).
  { unfold load_yaml. rewrite Hfile, Hparse. reflexivity. }
  repeat split.
  - exact Hload.
  - cbn [getitem]. rewrite Hid. reflexivity.
  - cbn [getitem]. rewrite Hsecret. reflexivity.
  - unfold AWSInventory__init__, bindM, lift, ret. rewrite Hload.
    cbn [getitem]. rewrite Hid, Hsecret. reflexivity.
Qed.


(** A document that parses to something other than a mapping (an empty
    document is [None]) fails in the first lookup with a type error. *)
Lemma non_mapping_config_raises (path text : string) (v : pyval) (w : world) :
  w_fs w !! path = Some (Text text) ->
  yaml_load text = Ok v ->
  (forall d, v <> PDict d) ->
  AWSInventory__init__ yaml_load path w = (Raise TypeError, w).
Proof.
  intros Hfile Hparse Hv.
  unfold AWSInventory__init__, bindM, lift, ret, load_yaml.
  rewrite Hfile, Hparse. destruct v; try reflexivity.
  exfalso. eapply Hv. reflexivity.
Qed.

End Configuration.

Lemma load_config_values_witness :
  load_yaml Sample.yaml_load "aws_credentials.yml" Sample.w0
  = (Ok (PDict [("AWS_ACCESS_KEY_ID", PStr "AKIA_TEST");
                ("AWS_SECRET_ACCESS_KEY", PStr "secret_test")]), Sample.w0) /\
  getitem (PDict [("AWS_ACCESS_KEY_ID", PStr "AKIA_TEST");
                  ("AWS_SECRET_ACCESS_KEY", PStr "secret_test")]) "AWS_ACCESS_KEY_ID"
  = Ok (PStr "AKIA_TEST") /\
  getitem (PDict [("AWS_ACCESS_KEY_ID", PStr "AKIA_TEST");
                  ("AWS_SECRET_ACCESS_KEY", PStr "secret_test")]) "AWS_SECRET_ACCESS_KEY"
  = Ok (PStr "secret_test") /\
  AWSInventory__init__ Sample.yaml_load "aws_credentials.yml" Sample.w0
  = (Ok (mkAWSInventory (PStr "AKIA_TEST") (PStr "secret_test")), Sample.w0).
Proof.
  apply (load_config_values Sample.yaml_load "aws_credentials.yml" Sample.config_text);
    reflexivity.
Defined.


(** *** The values of a flat document *)










(** ** C7: the calls the operations issue *)

(** C7. The snapshot listing issues one call, [describe_snapshots] with
    [OwnerIds=['self']], to the region it is given; every operation
    issues exactly one call, and the call of every other operation has no
    arguments. *)
Theorem snapshot_call_scoped (aws : request -> result pyval) (self : AWSInventory)
    (aws_region : string) (w : world) :
  w_calls (snd (list_ec2_snapshots aws self aws_region w))
  = w_calls w ++ [mkRequest (get_boto_client self "ec2" aws_region) "describe_snapshots"
                    [("OwnerIds", PList [PStr "self"])]]
  /\
  forall k, exists rq,
    w_calls (snd (list_resources aws k self aws_region w)) = w_calls w ++ [rq] /\
    rq_kwargs rq = match k with
                   | Snapshot => [("OwnerIds", PList [PStr "self"])]
                   | _ => []
                   end.
Proof.
  split.
  - unfold list_ec2_snapshots, bindM, invoke, lift.
    destruct (aws _); reflexivity.
  - intros k.
    destruct k; cbn [list_resources];
      unfold list_ec2_instances, list_ec2_volumes, list_ec2_snapshots, list_s3_buckets,
        list_rds_instances, list_eks_clusters, bindM, invoke, lift;
      match goal with |- context [aws ?r] => exists r; destruct (aws r) end;
      split; reflexivity.
Qed.

(** ** C8, C2: the report writer and the report *)

Section Writer.

Variable writer_opens : string -> bool.
Variable sheet_writes : string -> DataFrame -> bool.
Variable eng : engine.

Abbreviation accepted items :=
  (forallb (fun item : string * DataFrame => sheet_writes (fst item) (snd item)) items).

(** The sheet loop only touches the book of the innermost writer, and
    builds it as [write_sheets] says. *)
Lemma write_loop (items : list (string * DataFrame)) (filename : string)
    (book : workbook) (writers : list (string * workbook)) (w : world) :
  w_writers w = (filename, book) :: writers ->
  for_loop (fun _ item => to_excel sheet_writes eng (snd item) (fst item)) items tt w
  = (fst (write_sheets sheet_writes eng items book),
     mkWorld (w_fs w) (w_calls w)
       ((filename, snd (write_sheets sheet_writes eng items book)) :: writers)).
Proof.
  revert book w. induction items as [|[sheet_name df] items IH]; intros book w Hw.
  - cbn. rewrite <- Hw. destruct w; reflexivity.
  - cbn [for_loop write_sheets]. unfold bindM, to_excel at 1. rewrite Hw. cbn [fst snd].
    destruct (sheet_writes sheet_name df); [|reflexivity].
    rewrite (IH (book ++ [(sheet_name, to_sheet df)])
               (mkWorld (w_fs w) (w_calls w)
                  ((filename, book ++ [(sheet_name, to_sheet df)]) :: writers))
               eq_refl).
    reflexivity.
Qed.

Lemma write_sheets_accepted (items : list (string * DataFrame)) (book : workbook) :
  accepted items = true ->
  write_sheets sheet_writes eng items book = (Ok tt, book ++ map entry_sheet items).
Proof.
  revert book. induction items as [|[sheet_name df] items IH]; intros book Hacc.
  - cbn. rewrite app_nil_r. reflexivity.
  - cbn [forallb fst snd] in Hacc. apply andb_prop in Hacc as [Hok Hacc].
    cbn [write_sheets map]. rewrite Hok, (IH _ Hacc), <- app_assoc. reflexivity.
Qed.

Lemma write_sheets_Ok (items : list (string * DataFrame)) (book : workbook) :
  fst (write_sheets sheet_writes eng items book) = Ok tt -> accepted items = true.
Proof.
  revert book. induction items as [|[sheet_name df] items IH]; intros book H.
  - reflexivity.
  - cbn [write_sheets forallb fst snd] in *.
    destruct (sheet_writes sheet_name df); [exact (IH _ H)|discriminate].
Qed.


(** The whole of the writer, path by path: the destination does not
    open; the book is saved and the handle released; the save raises and
    the handle stays. *)
Lemma save_to_excel_run (dataframe_dict : list (string * DataFrame))
    (filename : string) (w : world) :
  save_to_excel writer_opens sheet_writes eng dataframe_dict filename w
  = if writer_opens filename
    then match save_book eng (snd (write_sheets sheet_writes eng dataframe_dict [])) with
         | Ok saved =>
             (fst (write_sheets sheet_writes eng dataframe_dict []),
              mkWorld (<[filename := Xlsx saved]> (w_fs w)) (w_calls w) (w_writers w))
         | Raise e =>
             (Raise e,
              mkWorld (<[filename := Xlsx []]> (w_fs w)) (w_calls w)
                ((filename, snd (write_sheets sheet_writes eng dataframe_dict []))
                 :: w_writers w))
         end
    else (Raise (open_error eng filename), w).
Proof.
  unfold save_to_excel, with_ExcelWriter, ExcelWriter_enter.
  destruct (writer_opens filename); [|reflexivity].
  rewrite (write_loop dataframe_dict filename [] (w_writers w)
             (mkWorld (<[filename := Xlsx []]> (w_fs w)) (w_calls w)
                ((filename, []) :: w_writers w))
             eq_refl).
  unfold ExcelWriter_exit. cbn [w_writers w_fs w_calls].
  destruct (save_book eng (snd (write_sheets sheet_writes eng dataframe_dict [])));
    [|reflexivity].
  rewrite insert_insert_eq. reflexivity.
Qed.


(** What the writer leaves behind when it returns for a mapping with at
    least one entry: one worksheet per entry of the mapping, in the order
    of the entries, each named by its key and holding the sheet of its
    table. *)
Lemma save_to_excel_book (dataframe_dict : list (string * DataFrame))
    (filename : string) (w w' : world) :
  dataframe_dict <> [] ->
  save_to_excel writer_opens sheet_writes eng dataframe_dict filename w = (Ok tt, w') ->
  w_fs w' !! filename = Some (Xlsx (map entry_sheet dataframe_dict)) /\
  w_writers w' = w_writers w.
Proof.
  intros Hne H. rewrite save_to_excel_run in H.
  destruct (writer_opens filename); [|discriminate].
  destruct (save_book eng (snd (write_sheets sheet_writes eng dataframe_dict [])))
    as [saved|e] eqn:Hsave; [|discriminate].
  injection H as Hok <-.
  apply write_sheets_Ok in Hok.
  rewrite (write_sheets_accepted _ [] Hok) in Hsave. cbn [snd app] in Hsave.
  destruct dataframe_dict as [|item items]; [congruence|].
  cbn [map save_book] in Hsave. injection Hsave as <-.
  cbn [w_fs w_writers]. split; [apply lookup_insert_eq|reflexivity].
Qed.

(** When the destination opens and the engine accepts every sheet of a
    mapping with at least one entry, the writer returns, and only the
    destination has changed. *)
Lemma save_to_excel_accepted (dataframe_dict : list (string * DataFrame))
    (filename : string) (w : world) :
  dataframe_dict <> [] ->
  writer_opens filename = true ->
  accepted dataframe_dict = true ->
  save_to_excel writer_opens sheet_writes eng dataframe_dict filename w
  = (Ok tt, mkWorld (<[filename := Xlsx (map entry_sheet dataframe_dict)]> (w_fs w))
              (w_calls w) (w_writers w)).
Proof.
  intros Hne Hopen Hacc. rewrite save_to_excel_run, Hopen.
  rewrite (write_sheets_accepted _ [] Hacc). cbn [fst snd app].
  destruct dataframe_dict as [|item items]; [congruence|]. reflexivity.
Qed.

(** The writer issues no provider call and touches no path but its
    destination. *)
Lemma save_to_excel_frame (dataframe_dict : list (string * DataFrame))
    (filename : string) (w : world) :
  let out := save_to_excel writer_opens sheet_writes eng dataframe_dict filename w in
  w_calls (snd out) = w_calls w /\
  forall p, p <> filename -> w_fs (snd out) !! p = w_fs w !! p.
Proof.
  cbn zeta. rewrite save_to_excel_run.
  destruct (writer_opens filename); [|split; reflexivity].
  destruct (save_book eng (snd (write_sheets sheet_writes eng dataframe_dict [])));
    cbn [snd w_calls w_fs]; (split; [reflexivity|]);
    intros p Hp; apply lookup_insert_ne; congruence.
Qed.

End Writer.

(** An invariant of the accumulator of a loop holds when the loop ends. *)
Lemma for_loop_invariant {A S} (P : S -> Prop) (step : S -> A -> M S) (l : list A) :
  (forall acc x w acc' w', step acc x w = (Ok acc', w') -> P acc') ->
  forall acc w acc' w',
    P acc -> for_loop step l acc w = (Ok acc', w') -> P acc'.
Proof.
  intros Hstep. induction l as [|x l IH]; cbn [for_loop]; intros acc w acc' w' Hacc H.
  - injection H as <- _. exact Hacc.
  - unfold bindM in H. destruct (step acc x w) as [[acc1|e] w1] eqn:H1; [|discriminate].
    eapply IH; [|exact H]. eapply Hstep. exact H1.
Qed.

Lemma bindM_Ok {A B} (m : M A) (k : A -> M B) (w w' : world) (b : B) :
  bindM m k w = (Ok b, w') -> exists a w1, m w = (Ok a, w1) /\ k a w1 = (Ok b, w').
Proof.
  unfold bindM. destruct (m w) as [[a|e] w1]; [eauto|discriminate].
Qed.

Lemma region_step_index (aws : request -> result pyval) (inventory : AWSInventory)
    (acc : tables) (region : string) (w : world) (acc' : tables) (w' : world) :
  region_step aws inventory acc region w = (Ok acc', w') -> default_indexes acc'.
Proof.
  unfold region_step. intros H.
  repeat (apply bindM_Ok in H as (? & ? & _ & H)).
  injection H as <- _. repeat split.
Qed.

Lemma list_resources_index (aws : request -> result pyval) (k : resource_kind)
    (self : AWSInventory) (aws_region : string) (w : world) (df : DataFrame) :
  fst (list_resources aws k self aws_region w) = Ok df -> default_index df.
Proof.
  intros H. apply list_resources_rows in H as (_ & _ & _ & _ & _ & _ & Hdf).
  unfold default_index. rewrite Hdf. reflexivity.
Qed.

(** The mapping the entry point assembles has the five keys below, in
    this order, and tables with the default row index. *)
Lemma assemble_keys (aws : request -> result pyval) (yaml_load : string -> result pyval)
    (argv : list string) (w w1 : world) (output_file : string)
    (df_dict : list (string * DataFrame)) :
  assemble aws yaml_load argv w = (Ok (output_file, df_dict), w1) ->
  nth_error argv 1 = Some output_file /\
  map fst df_dict = ["EC2"; "RDS"; "EC2-Volumes"; "EC2-Snapshots"; "S3-Buckets"] /\
  Forall (fun item => default_index (snd item)) df_dict.
Proof.
  unfold assemble. intros H.
  apply bindM_Ok in H as (out & w2 & Hout & H).
  apply bindM_Ok in H as (inventory & w3 & _ & H).
  apply bindM_Ok in H as (acc & w4 & Hloop & H).
  apply bindM_Ok in H as (df_s3 & w5 & Hs3 & H).
  injection H as -> <- _.
  split; [|split; [reflexivity|]].
  - unfold lift in Hout. destruct (nth_error argv 1); [|discriminate].
    injection Hout as -> _. reflexivity.
  - assert (Hacc : default_indexes acc).
    { refine (for_loop_invariant default_indexes (region_step aws inventory) regions
                (region_step_index aws inventory) _ _ _ _ _ Hloop).
      repeat split. }
    destruct Hacc as (H1 & H2 & H3 & H4).
    assert (H5 : default_index df_s3).
    { apply (list_resources_index aws Bucket inventory "us-east-1" w4).
      cbn [list_resources]. rewrite Hs3. reflexivity. }
    repeat constructor; assumption.
Qed.

(** C2 (as amended). The report of a run of the entry point that ends
    without exception is one workbook at the path given on the command
    line, with exactly one worksheet per entry of the assembled mapping,
    named by the key: the five worksheets EC2, RDS, EC2-Volumes,
    EC2-Snapshots and S3-Buckets, in this order, and no EKS worksheet.
    Each worksheet holds its table: below the header, row i of the table
    with the row label i in front of its cells in column order. *)
Theorem report_workbook (aws : request -> result pyval)
    (yaml_load : string -> result pyval) (writer_opens : string -> bool)
    (sheet_writes : string -> DataFrame -> bool) (eng : engine)
    (argv : list string) (w w' : world) :
  main aws yaml_load writer_opens sheet_writes eng argv w = (Ok tt, w') ->
  exists output_file df_dict w1,
    assemble aws yaml_load argv w = (Ok (output_file, df_dict), w1) /\
    nth_error argv 1 = Some output_file /\
    w_fs w' !! output_file = Some (Xlsx (map entry_sheet df_dict)) /\
    map fst (map entry_sheet df_dict)
    = ["EC2"; "RDS"; "EC2-Volumes"; "EC2-Snapshots"; "S3-Buckets"] /\
    forall sheet_name df,
      In (sheet_name, df) df_dict ->
      In (sheet_name, to_sheet df) (map entry_sheet df_dict) /\
      to_sheet df !! 0%nat = Some (None :: map (fun c => Some (PStr c)) (df_columns df)) /\
      length (to_sheet df) = S (length (df_rows df)) /\
      forall i r,
        df_rows df !! i = Some r ->
        to_sheet df !! S i
        = Some (Some (PInt (Z.of_nat i)) :: map (cell r) (df_columns df)).
Proof.
  unfold main. intros H.
  apply bindM_Ok in H as ([output_file df_dict] & w1 & Hassemble & Hsave).
  cbn [fst snd] in Hsave.
  destruct (assemble_keys _ _ _ _ _ _ _ Hassemble) as (Hargv & Hkeys & Hindex).
  apply save_to_excel_book in Hsave as [Hfile _];
    [|intros Hnil; rewrite Hnil in Hkeys; discriminate].
  exists output_file, df_dict, w1.
  repeat split; try assumption.
  - rewrite map_map. exact Hkeys.
  - apply (in_map entry_sheet _ (sheet_name, df)). assumption.
  - pose proof (proj1 (List.Forall_forall _ _) Hindex _ H) as Hdf. cbn [snd] in Hdf.
    unfold to_sheet. cbn [length]. rewrite length_map, length_zip_with.
    rewrite Hdf, length_RangeIndex. f_equal. lia.
  - intros i r Hr. apply to_sheet_row; [|exact Hr].
    exact (proj1 (List.Forall_forall _ _) Hindex _ H).
Qed.

Lemma report_workbook_witness :
  exists output_file df_dict w1,
    assemble Sample.aws Sample.yaml_load Sample.argv Sample.w0
    = (Ok (output_file, df_dict), w1) /\
    nth_error Sample.argv 1 = Some output_file /\
    w_fs (snd (main Sample.aws Sample.yaml_load Sample.writer_opens Sample.sheet_writes Sample.xlsxwriter
                 Sample.argv Sample.w0)) !! output_file
    = Some (Xlsx (map entry_sheet df_dict)) /\
    map fst (map entry_sheet df_dict)
    = ["EC2"; "RDS"; "EC2-Volumes"; "EC2-Snapshots"; "S3-Buckets"] /\
    forall sheet_name df,
      In (sheet_name, df) df_dict ->
      In (sheet_name, to_sheet df) (map entry_sheet df_dict) /\
      to_sheet df !! 0%nat = Some (None :: map (fun c => Some (PStr c)) (df_columns df)) /\
      length (to_sheet df) = S (length (df_rows df)) /\
      forall i r,
        df_rows df !! i = Some r ->
        to_sheet df !! S i
        = Some (Some (PInt (Z.of_nat i)) :: map (cell r) (df_columns df)).
Proof.
  apply (report_workbook Sample.aws Sample.yaml_load Sample.writer_opens
           Sample.sheet_writes Sample.xlsxwriter Sample.argv Sample.w0).
  vm_compute. reflexivity.
Defined.

(** The claim as the spec words it fails on the sample account: the
    workbook of the run has neither six worksheets nor an EKS worksheet. *)
Lemma report_has_no_sixth_sheet :
  ~ (exists book,
       w_fs (snd (main Sample.aws Sample.yaml_load Sample.writer_opens
                    Sample.sheet_writes Sample.xlsxwriter Sample.argv Sample.w0)) !! "output.xlsx"
       = Some (Xlsx book) /\
       (length book = 6%nat \/ In "EKS" (map fst book))).
Proof.
  intros (book & Hbook & Hsix). vm_compute in Hbook. injection Hbook as <-.
  cbn in Hsix. destruct Hsix as [Hlen|Hin]; [discriminate|].
  repeat (destruct Hin as [Hin|Hin]; [discriminate|]). exact Hin.
Qed.



(** * Further properties of the collector *)

(** ** The Name of a tagged instance *)

Lemma first_name_tag_found (before after : list pyval) (tag v : pyval) :
  no_name_tag before ->
  getitem tag "Key" = Ok (PStr "Name") ->
  getitem tag "Value" = Ok v ->
  first_name_tag (before ++ tag :: after) = Ok v.
Proof.
  intros Hbefore Hkey Hvalue.
  induction Hbefore as [|t before (k & Hk & Hne) _ IH]; cbn [app first_name_tag].
  - rewrite Hkey. cbn [bind py_eq_str]. rewrite String.eqb_refl. exact Hvalue.
  - rewrite Hk. cbn [bind].
    replace (py_eq_str k "Name") with false; [exact IH|].
    destruct k as [| | |s| | |]; try reflexivity. cbn [py_eq_str].
    symmetry. apply String.eqb_neq. congruence.
Qed.

(** The Name of a compute instance is the value of its first tag with
    key "Name": the tags after it are not looked at, whatever they are,
    and every record of that instance carries this value. *)
Theorem first_name_tag_wins (aws_region : string) (instance : pyval)
    (before after : list pyval) (tag v : pyval) :
  getitem instance "Tags" = Ok (PList (before ++ tag :: after)) ->
  no_name_tag before ->
  getitem tag "Key" = Ok (PStr "Name") ->
  getitem tag "Value" = Ok v ->
  first_name_tag (before ++ tag :: after) = Ok v /\
  forall r, instance_record aws_region instance = Ok r -> cell r "Name" = Some v.
Proof.
  intros Htags Hbefore Hkey Hvalue.
  pose proof (first_name_tag_found before after tag v Hbefore Hkey Hvalue) as Hname.
  split; [exact Hname|].
  intros r Hr. unfold instance_record in Hr. rewrite Htags in Hr.
  cbn [bind py_iter] in Hr. rewrite Hname in Hr. cbn [bind] in Hr.
  repeat match type of Hr with
         | bind _ _ = Ok _ => apply bind_Ok in Hr as (? & _ & Hr)
         end.
  injection Hr as <-. reflexivity.
Qed.

Lemma first_name_tag_wins_witness :
  first_name_tag ([Sample.tag "env" "prod"]
                  ++ Sample.tag "Name" "web-1" :: [Sample.tag "Name" "other"; PNone])
  = Ok (PStr "web-1") /\
  forall r,
    instance_record "us-east-1"
      (Sample.instance [Sample.tag "env" "prod"; Sample.tag "Name" "web-1";
                        Sample.tag "Name" "other"; PNone] "i-01") = Ok r ->
    cell r "Name" = Some (PStr "web-1").
Proof.
  apply (first_name_tag_wins "us-east-1"
           (Sample.instance [Sample.tag "env" "prod"; Sample.tag "Name" "web-1";
                             Sample.tag "Name" "other"; PNone] "i-01")
           [Sample.tag "env" "prod"] [Sample.tag "Name" "other"; PNone]
           (Sample.tag "Name" "web-1") (PStr "web-1")); try reflexivity.
  constructor; [|constructor].
  exists (PStr "env"). split; [reflexivity|discriminate].
Defined.

(** ** Items with a missing field *)

Lemma item_record_fields (k : resource_kind) (aws_region : string)
    (d : list (string * pyval)) :
  In k [Volume; Snapshot; Bucket; DatabaseInstance] ->
  match first_missing (source_fields k) d with
  | Some f => item_record k aws_region (PDict d) = Raise (KeyError f)
  | None => exists r, item_record k aws_region (PDict d) = Ok r
  end.
Proof.
  intros Hk.
  destruct k; try (exfalso; cbn in Hk; intuition discriminate);
    cbn [item_record source_fields];
    unfold first_missing, volume_record, snapshot_record, bucket_record, rds_record;
    cbn [List.find getitem];
    repeat match goal with
           | |- context [dict_get ?f d] => destruct (dict_get f d); cbn [bind]
           end;
    eauto.
Qed.

(** For volumes, snapshots, buckets and database instances: an item that
    lacks one of the source fields of its kind has no record, its record
    raises the key-lookup error of the first missing field, and so does
    the operation when the items before have their records; an item with
    all the source fields has a record. *)
Theorem missing_field_key_error (k : resource_kind) (response : pyval)
    (items : list pyval) (i : nat) (d : list (string * pyval)) (f : string)
    (self : AWSInventory) (aws_region : string) (w : world) :
  In k [Volume; Snapshot; Bucket; DatabaseInstance] ->
  response_items k response = Ok items ->
  items !! i = Some (PDict d) ->
  first_missing (source_fields k) d = Some f ->
  item_record k aws_region (PDict d) = Raise (KeyError f) /\
  forall rows,
    for_each (item_record k aws_region) (take i items) = Ok rows ->
    fst (list_resources (fun _ => Ok response) k self aws_region w) = Raise (KeyError f).
Proof.
  intros Hk Hitems Hi Hmiss.
  pose proof (item_record_fields k aws_region d Hk) as Hrec. rewrite Hmiss in Hrec.
  split; [exact Hrec|].
  intros rows Hbefore.
  rewrite (list_resources_eq _ _ _ _ _ _ Hitems).
  rewrite (for_each_first_failure _ _ _ _ _ _ Hi Hrec Hbefore). reflexivity.
Qed.

Lemma missing_field_key_error_witness :
  item_record Volume "us-east-1" (PDict [("VolumeId", PStr "vol-02"); ("State", PStr "in-use")])
  = Raise (KeyError "Size") /\
  forall rows,
    for_each (item_record Volume "us-east-1")
      (take 1 [Sample.volume "vol-01" 8;
               PDict [("VolumeId", PStr "vol-02"); ("State", PStr "in-use")]]) = Ok rows ->
    fst (list_resources
           (fun _ => Ok (PDict [("Volumes",
                                 PList [Sample.volume "vol-01" 8;
                                        PDict [("VolumeId", PStr "vol-02");
                                               ("State", PStr "in-use")]])]))
           Volume Sample.inventory "us-east-1" Sample.w0)
    = Raise (KeyError "Size").
Proof.
  apply (missing_field_key_error Volume
           (PDict [("Volumes",
                    PList [Sample.volume "vol-01" 8;
                           PDict [("VolumeId", PStr "vol-02"); ("State", PStr "in-use")]])])
           [Sample.volume "vol-01" 8;
            PDict [("VolumeId", PStr "vol-02"); ("State", PStr "in-use")]]
           1 _ "Size" Sample.inventory "us-east-1" Sample.w0);
    [cbn; tauto | reflexivity | reflexivity | reflexivity].
Defined.

(** An item with every source field of its kind has a record. *)
Theorem complete_item_has_record (k : resource_kind) (aws_region : string)
    (d : list (string * pyval)) :
  In k [Volume; Snapshot; Bucket; DatabaseInstance] ->
  first_missing (source_fields k) d = None ->
  exists r, item_record k aws_region (PDict d) = Ok r /\ map fst r = fixed_columns k.
Proof.
  intros Hk Hnone.
  pose proof (item_record_fields k aws_region d Hk) as Hrec. rewrite Hnone in Hrec.
  destruct Hrec as (r & Hr). exists r. split; [exact Hr|].
  eapply item_record_keys. exact Hr.
Qed.

Lemma complete_item_has_record_witness :
  exists r,
    item_record Snapshot "eu-west-1"
      (PDict [("SnapshotId", PStr "snap-01"); ("VolumeSize", PInt 8);
              ("State", PStr "completed")]) = Ok r /\
    map fst r = fixed_columns Snapshot.
Proof.
  apply (complete_item_has_record Snapshot "eu-west-1"); [cbn; tauto | reflexivity].
Defined.

(** ** Computations that only talk to the provider *)

Lemma add_calls_nil (w : world) : add_calls [] w = w.
Proof. destruct w. unfold add_calls. cbn. rewrite app_nil_r. reflexivity. Qed.

Lemma add_calls_app (l1 l2 : list request) (w : world) :
  add_calls l2 (add_calls l1 w) = add_calls (l1 ++ l2) w.
Proof. unfold add_calls. cbn. rewrite app_assoc. reflexivity. Qed.

Lemma logs_pure {A} (r : result A) : logs (lift r) [].
Proof.
  intros w. exists [], []. cbn. rewrite add_calls_nil. auto.
Qed.

Lemma logs_ret {A} (a : A) : logs (ret a) [].
Proof. exact (logs_pure (Ok a)). Qed.

Lemma logs_bind {A B} (m : M A) (k : A -> M B) (c1 c2 : list request) :
  logs m c1 -> (forall a, logs (k a) c2) -> logs (bindM m k) (c1 ++ c2).
Proof.
  intros Hm Hk w. destruct (Hm w) as (made1 & rest1 & Hc1 & Hs1 & Hok1).
  unfold bindM. destruct (m w) as [[a|e] w1]; cbn [fst snd] in *.
  - rewrite (Hok1 a eq_refl), app_nil_r in Hc1. subst c1 w1.
    destruct (Hk a (add_calls made1 w)) as (made2 & rest2 & Hc2 & Hs2 & Hok2).
    exists (made1 ++ made2), rest2. rewrite Hs2, add_calls_app, Hc2, app_assoc.
    auto.
  - exists made1, (rest1 ++ c2). subst c1 w1. rewrite app_assoc.
    repeat split. discriminate.
Qed.

Lemma logs_for_loop {A S} (step : S -> A -> M S) (c : A -> list request) (l : list A) :
  (forall acc x, logs (step acc x) (c x)) ->
  forall acc, logs (for_loop step l acc) (flat_map c l).
Proof.
  intros Hstep. induction l as [|x l IH]; intros acc; cbn [for_loop flat_map].
  - apply logs_ret.
  - apply logs_bind; [apply Hstep|exact IH].
Qed.

Lemma logs_list_resources (aws : request -> result pyval) (k : resource_kind)
    (self : AWSInventory) (aws_region : string) :
  logs (list_resources aws k self aws_region) [issued_request k self aws_region].
Proof.
  intros w. exists [issued_request k self aws_region], [].
  destruct k; cbn [list_resources issued_request];
    unfold list_ec2_instances, list_ec2_volumes, list_ec2_snapshots, list_s3_buckets,
      list_rds_instances, list_eks_clusters, bindM, invoke, lift;
    match goal with |- context [aws ?r] => destruct (aws r) end;
    repeat split.
Qed.

Lemma logs_region_step (aws : request -> result pyval) (inventory : AWSInventory)
    (acc : tables) (region : string) :
  logs (region_step aws inventory acc region) (region_calls inventory region).
Proof.
  unfold region_step.
  change (region_calls inventory region)
    with ([issued_request ComputeInstance inventory region]
          ++ [issued_request DatabaseInstance inventory region]
          ++ [issued_request Volume inventory region]
          ++ [issued_request Snapshot inventory region] ++ []).
  apply logs_bind; [exact (logs_list_resources aws ComputeInstance inventory region)|].
  intros df_ec2.
  apply logs_bind; [exact (logs_list_resources aws DatabaseInstance inventory region)|].
  intros df_rds.
  apply logs_bind; [exact (logs_list_resources aws Volume inventory region)|].
  intros df_volumes.
  apply logs_bind; [exact (logs_list_resources aws Snapshot inventory region)|].
  intros df_snapshots. apply logs_ret.
Qed.

(** Building the collector reads the configuration and leaves the world
    as it was. *)
Lemma init_world (yaml_load : string -> result pyval) (path : string) (w : world) :
  snd (AWSInventory__init__ yaml_load path w) = w.
Proof.
  unfold AWSInventory__init__, bindM, lift, ret, load_yaml.
  destruct (w_fs w !! path) as [[text|book]|]; try reflexivity.
  destruct (yaml_load text) as [v|e]; [|reflexivity].
  destruct (getitem v "AWS_ACCESS_KEY_ID"); [|reflexivity].
  destruct (getitem v "AWS_SECRET_ACCESS_KEY"); reflexivity.
Qed.

(** The three ways [assemble] goes: no output path on the command line,
    no collector, or the run of the provider calls. *)
Lemma assemble_run (aws : request -> result pyval) (yaml_load : string -> result pyval)
    (argv : list string) (w : world) :
  match nth_error argv 1 with
  | None => assemble aws yaml_load argv w = (Raise IndexError, w)
  | Some output_file =>
      match fst (AWSInventory__init__ yaml_load "aws_credentials.yml" w) with
      | Raise e => assemble aws yaml_load argv w = (Raise e, w)
      | Ok inventory =>
          exists made rest,
            run_calls inventory = made ++ rest /\
            snd (assemble aws yaml_load argv w) = add_calls made w /\
            (forall job, fst (assemble aws yaml_load argv w) = Ok job ->
                         rest = [] /\ fst job = output_file)
      end
  end.
Proof.
  pose proof (init_world yaml_load "aws_credentials.yml" w) as Hw.
  destruct (nth_error argv 1) as [output_file|] eqn:Hargv;
    [|unfold assemble, bindM, lift; rewrite Hargv; reflexivity].
  destruct (AWSInventory__init__ yaml_load "aws_credentials.yml" w)
    as [[inventory|e] w1] eqn:Hinit;
    cbn [fst snd] in *; subst w1;
    [|unfold assemble, bindM at 1 2, lift at 1; rewrite Hargv, Hinit; reflexivity].
  set (run := bindM (for_loop (region_step aws inventory) regions
                       (mkTables pd_DataFrame_empty pd_DataFrame_empty
                                 pd_DataFrame_empty pd_DataFrame_empty))
                (fun acc =>
                   bindM (list_s3_buckets aws inventory)
                     (fun df_s3 =>
                        ret (output_file,
                             [("EC2", all_ec2_data acc);
                              ("RDS", all_rds_data acc);
                              ("EC2-Volumes", all_volumes_data acc);
                              ("EC2-Snapshots", all_snapshots_data acc);
                              ("S3-Buckets", df_s3)])))).
  assert (Hasm : assemble aws yaml_load argv w = run w).
  { unfold assemble, bindM at 1 2, lift at 1. rewrite Hargv, Hinit. reflexivity. }
  rewrite Hasm.
  assert (Hlogs : logs run (run_calls inventory)).
  { unfold run, run_calls. apply logs_bind.
    - apply logs_for_loop. intros acc x. apply logs_region_step.
    - intros acc.
      change [issued_request Bucket inventory "us-east-1"]
        with ([issued_request Bucket inventory "us-east-1"] ++ []).
      apply logs_bind;
        [exact (logs_list_resources aws Bucket inventory "us-east-1")|].
      intros df_s3. apply logs_ret. }
  destruct (Hlogs w) as (made & rest & Hcalls & Hsnd & Hok).
  exists made, rest. split; [exact Hcalls|]. split; [exact Hsnd|].
  intros job Hjob. split; [eapply Hok; exact Hjob|].
  clear - Hjob. unfold run in Hjob.
  destruct (bindM _ _ w) as [r w'] eqn:Hrun in Hjob. cbn [fst] in Hjob. subst r.
  apply bindM_Ok in Hrun as (acc & w2 & _ & Hrun).
  apply bindM_Ok in Hrun as (df_s3 & w3 & _ & Hrun).
  injection Hrun as <- _. reflexivity.
Qed.

Lemma assemble_frame (aws : request -> result pyval) (yaml_load : string -> result pyval)
    (argv : list string) (w : world) :
  exists made, snd (assemble aws yaml_load argv w) = add_calls made w.
Proof.
  pose proof (assemble_run aws yaml_load argv w) as H.
  destruct (nth_error argv 1) as [output_file|].
  - destruct (fst (AWSInventory__init__ yaml_load "aws_credentials.yml" w)) as [inventory|e].
    + destruct H as (made & rest & _ & Hsnd & _). exists made. exact Hsnd.
    + exists []. rewrite H, add_calls_nil. reflexivity.
  - exists []. rewrite H, add_calls_nil. reflexivity.
Qed.

Lemma main_unfold (aws : request -> result pyval) (yaml_load : string -> result pyval)
    (writer_opens : string -> bool) (sheet_writes : string -> DataFrame -> bool)
    (eng : engine) (argv : list string) (w : world) :
  main aws yaml_load writer_opens sheet_writes eng argv w
  = match assemble aws yaml_load argv w with
    | (Ok job, w1) => save_to_excel writer_opens sheet_writes eng (snd job) (fst job) w1
    | (Raise e, w1) => (Raise e, w1)
    end.
Proof. reflexivity. Qed.

(** ** Runs of the entry point *)

Section Runs.

Variable aws : request -> result pyval.
Variable yaml_load : string -> result pyval.
Variable writer_opens : string -> bool.
Variable sheet_writes : string -> DataFrame -> bool.
Variable eng : engine.

Abbreviation run argv w := (main aws yaml_load writer_opens sheet_writes eng argv w).

(** The provider calls of a run follow one script: for each of the
    three regions in order, the instances, the databases, the volumes and
    the snapshots, then the buckets.  A run makes a prefix of the script
    (all thirteen calls when it ends without exception), every call with
    the credentials of the configuration, and none to the cluster
    service. *)
Theorem run_follows_script (argv : list string) (w : world) (inventory : AWSInventory) :
  fst (AWSInventory__init__ yaml_load "aws_credentials.yml" w) = Ok inventory ->
  exists made rest,
    run_calls inventory = made ++ rest /\
    w_calls (snd (run argv w)) = w_calls w ++ made /\
    (fst (run argv w) = Ok tt -> rest = [] /\ length made = 13%nat) /\
    Forall (fun rq =>
              c_service_name (rq_client rq) <> "eks" /\
              c_aws_access_key_id (rq_client rq) = aws_access_key_id inventory /\
              c_aws_secret_access_key (rq_client rq) = aws_secret_access_key inventory)
           made.
Proof.
  intros Hinit.
  assert (Hscript : Forall (fun rq =>
              c_service_name (rq_client rq) <> "eks" /\
              c_aws_access_key_id (rq_client rq) = aws_access_key_id inventory /\
              c_aws_secret_access_key (rq_client rq) = aws_secret_access_key inventory)
            (run_calls inventory)).
  { repeat constructor; discriminate. }
  rewrite main_unfold.
  pose proof (assemble_run aws yaml_load argv w) as H.
  destruct (nth_error argv 1) as [output_file|].
  - rewrite Hinit in H. destruct H as (made & rest & Hcalls & Hsnd & Hok).
    exists made, rest. split; [exact Hcalls|].
    rewrite Hcalls in Hscript. apply Forall_app in Hscript as [Hmade _].
    destruct (assemble aws yaml_load argv w) as [[job|e] w1]; cbn [fst snd] in *;
      subst w1.
    + destruct (Hok job eq_refl) as [-> _].
      destruct (save_to_excel_frame writer_opens sheet_writes eng (snd job) (fst job)
                  (add_calls made w)) as [Hc _].
      cbn zeta in Hc. rewrite Hc. cbn [add_calls w_calls].
      repeat split; try assumption.
      rewrite app_nil_r in Hcalls. rewrite <- Hcalls. reflexivity.
    + cbn [add_calls w_calls]. repeat split; try assumption; discriminate.
  - rewrite H. exists [], (run_calls inventory). cbn [fst snd].
    rewrite app_nil_r. repeat split; try discriminate. constructor.
Qed.

(** A run that fails before the writer (no output path, no collector, a
    provider failure, a response that does not flatten) raises that very
    exception and leaves every file and every writer handle as it was. *)
Theorem failed_collection_writes_nothing (argv : list string) (w w1 : world) (e : exn) :
  assemble aws yaml_load argv w = (Raise e, w1) ->
  run argv w = (Raise e, w1) /\
  w_fs w1 = w_fs w /\
  w_writers w1 = w_writers w.
Proof.
  intros H. rewrite main_unfold, H. split; [reflexivity|].
  destruct (assemble_frame aws yaml_load argv w) as (made & Hsnd).
  rewrite H in Hsnd. cbn [snd] in Hsnd. subst w1. split; reflexivity.
Qed.

(** Whatever a run does, it changes no file other than the one named by
    its first argument. *)
Theorem run_touches_only_output (argv : list string) (w : world) (p : string) :
  nth_error argv 1 <> Some p ->
  w_fs (snd (run argv w)) !! p = w_fs w !! p.
Proof.
  intros Hp. rewrite main_unfold.
  pose proof (assemble_run aws yaml_load argv w) as H.
  destruct (assemble_frame aws yaml_load argv w) as (made & Hsnd).
  destruct (assemble aws yaml_load argv w) as [[job|e] w1] eqn:Hasm;
    cbn [snd] in Hsnd; subst w1; [|reflexivity].
  destruct (save_to_excel_frame writer_opens sheet_writes eng (snd job) (fst job)
              (add_calls made w)) as [_ Hfs].
  cbn zeta in Hfs. rewrite Hfs; [reflexivity|].
  intros ->. apply Hp.
  destruct (nth_error argv 1) as [output_file|]; [|discriminate].
  destruct (fst (AWSInventory__init__ yaml_load "aws_credentials.yml" w));
    [|discriminate].
  destruct H as (made' & rest & _ & _ & Hok).
  destruct (Hok job eq_refl) as [_ ->]. reflexivity.
Qed.

(** Without an output path on the command line the run raises the index
    error at once: no file is read, no call is made. *)
Theorem missing_argument_raises (argv : list string) (w : world) :
  (length argv < 2)%nat ->
  run argv w = (Raise IndexError, w).
Proof.
  intros Hlen. rewrite main_unfold.
  pose proof (assemble_run aws yaml_load argv w) as H.
  replace (nth_error argv 1) with (@None string) in H; [rewrite H; reflexivity|].
  symmetry. apply nth_error_None. lia.
Qed.

(** When the collector cannot be built (missing or unreadable
    configuration file, parse failure, missing key) the run raises that
    exception before any provider call and without writing anything. *)
Theorem configuration_failure_stops_run (argv : list string) (w : world)
    (output_file : string) (e : exn) :
  nth_error argv 1 = Some output_file ->
  fst (AWSInventory__init__ yaml_load "aws_credentials.yml" w) = Raise e ->
  run argv w = (Raise e, w).
Proof.
  intros Hargv Hinit. rewrite main_unfold.
  pose proof (assemble_run aws yaml_load argv w) as H.
  rewrite Hargv, Hinit in H. rewrite H. reflexivity.
Qed.

End Runs.

Lemma run_follows_script_witness :
  exists made rest,
    run_calls Sample.inventory = made ++ rest /\
    w_calls (snd (main Sample.aws Sample.yaml_load Sample.writer_opens Sample.sheet_writes Sample.xlsxwriter
                    Sample.argv Sample.w0)) = w_calls Sample.w0 ++ made /\
    (fst (main Sample.aws Sample.yaml_load Sample.writer_opens Sample.sheet_writes Sample.xlsxwriter
            Sample.argv Sample.w0) = Ok tt -> rest = [] /\ length made = 13%nat) /\
    Forall (fun rq =>
              c_service_name (rq_client rq) <> "eks" /\
              c_aws_access_key_id (rq_client rq) = aws_access_key_id Sample.inventory /\
              c_aws_secret_access_key (rq_client rq)
              = aws_secret_access_key Sample.inventory)
           made.
Proof.
  apply (run_follows_script Sample.aws Sample.yaml_load Sample.writer_opens
           Sample.sheet_writes Sample.xlsxwriter Sample.argv Sample.w0 Sample.inventory).
  reflexivity.
Defined.

Lemma failed_collection_writes_nothing_witness :
  main Sample.aws_untagged Sample.yaml_load Sample.writer_opens Sample.sheet_writes Sample.xlsxwriter
    Sample.argv Sample.w0
  = (Raise (KeyError "Tags"),
     add_calls [issued_request ComputeInstance Sample.inventory "us-east-1"] Sample.w0) /\
  w_fs (add_calls [issued_request ComputeInstance Sample.inventory "us-east-1"] Sample.w0)
  = w_fs Sample.w0 /\
  w_writers (add_calls [issued_request ComputeInstance Sample.inventory "us-east-1"]
               Sample.w0)
  = w_writers Sample.w0.
Proof.
  apply (failed_collection_writes_nothing Sample.aws_untagged Sample.yaml_load
           Sample.writer_opens Sample.sheet_writes Sample.xlsxwriter Sample.argv Sample.w0).
  vm_compute. reflexivity.
Defined.

Lemma run_touches_only_output_witness :
  w_fs (snd (main Sample.aws Sample.yaml_load Sample.writer_opens Sample.sheet_writes Sample.xlsxwriter
               Sample.argv Sample.w0)) !! "aws_credentials.yml"
  = w_fs Sample.w0 !! "aws_credentials.yml".
Proof.
  apply (run_touches_only_output Sample.aws Sample.yaml_load Sample.writer_opens
           Sample.sheet_writes Sample.xlsxwriter Sample.argv Sample.w0 "aws_credentials.yml").
  discriminate.
Defined.

Lemma missing_argument_raises_witness :
  main Sample.aws Sample.yaml_load Sample.writer_opens Sample.sheet_writes Sample.xlsxwriter
    ["aws_inventory.py"] Sample.w0
  = (Raise IndexError, Sample.w0).
Proof.
  apply (missing_argument_raises Sample.aws Sample.yaml_load Sample.writer_opens
           Sample.sheet_writes Sample.xlsxwriter ["aws_inventory.py"] Sample.w0).
  cbn. lia.
Defined.

Lemma configuration_failure_stops_run_witness :
  main Sample.aws Sample.yaml_load Sample.writer_opens Sample.sheet_writes Sample.xlsxwriter
    Sample.argv Sample.w_without_secret
  = (Raise (KeyError "AWS_SECRET_ACCESS_KEY"), Sample.w_without_secret).
Proof.
  apply (configuration_failure_stops_run Sample.aws Sample.yaml_load Sample.writer_opens
           Sample.sheet_writes Sample.xlsxwriter Sample.argv Sample.w_without_secret "output.xlsx");
    reflexivity.
Defined.

(** ** Tables and their items *)

Lemma list_resources_result (aws : request -> result pyval) (k : resource_kind)
    (self : AWSInventory) (aws_region : string) (w : world) :
  list_resources aws k self aws_region w
  = (fst (list_resources (fun _ => aws (issued_request k self aws_region)) k self
            aws_region w),
     add_calls [issued_request k self aws_region] w).
Proof.
  destruct k; cbn [list_resources issued_request];
    unfold list_ec2_instances, list_ec2_volumes, list_ec2_snapshots, list_s3_buckets,
      list_rds_instances, list_eks_clusters, bindM, invoke, lift;
    match goal with |- context [aws ?r] => destruct (aws r) end;
    reflexivity.
Qed.

(** The world plays no part in what an operation returns. *)
Lemma list_resources_any_world (aws : request -> result pyval) (k : resource_kind)
    (self : AWSInventory) (aws_region : string) (w w0 : world) :
  fst (list_resources aws k self aws_region w)
  = fst (list_resources aws k self aws_region w0).
Proof.
  destruct k; cbn [list_resources];
    unfold list_ec2_instances, list_ec2_volumes, list_ec2_snapshots, list_s3_buckets,
      list_rds_instances, list_eks_clusters, bindM, invoke, lift;
    match goal with |- context [aws ?r] => destruct (aws r) end;
    reflexivity.
Qed.

(** Every table an operation returns has one row per item of the
    response to its call, in the order of the response (for compute
    instances: reservation by reservation), and row i is the record of
    item i. *)
Theorem table_rows_follow_items (aws : request -> result pyval) (k : resource_kind)
    (self : AWSInventory) (aws_region : string) (w : world) (df : DataFrame) :
  fst (list_resources aws k self aws_region w) = Ok df ->
  exists response items,
    aws (issued_request k self aws_region) = Ok response /\
    response_items k response = Ok items /\
    length (df_rows df) = length items /\
    forall i item,
      items !! i = Some item ->
      exists r, df_rows df !! i = Some r /\ item_record k aws_region item = Ok r.
Proof.
  intros Hdf.
  rewrite list_resources_result in Hdf. cbn [fst] in Hdf.
  destruct (aws (issued_request k self aws_region)) as [response|e] eqn:Haws.
  - apply list_resources_rows in Hdf as (rq & response' & items & Hrq & Hitems & Hall & _).
    injection Hrq as <-.
    exists response, items. repeat split; try assumption.
    + symmetry. eapply Forall2_length. exact Hall.
    + intros i item Hi. exact (Forall2_lookup_l _ _ _ _ _ Hall Hi).
  - exfalso.
    apply list_resources_rows in Hdf as (rq & response' & _ & Hrq & _). discriminate.
Qed.

Lemma table_rows_follow_items_witness :
  exists response items,
    Sample.aws (issued_request ComputeInstance Sample.inventory "us-east-1") = Ok response /\
    response_items ComputeInstance response = Ok items /\
    length (df_rows (pd_DataFrame
                       [[("Name", PStr "web-1"); ("Instance ID", PStr "i-01");
                         ("Type", PStr "t3.micro"); ("OS", PStr "Linux/UNIX");
                         ("Region", PStr "us-east-1"); ("State", PStr "running")];
                        [("Name", PStr ""); ("Instance ID", PStr "i-02");
                         ("Type", PStr "t3.micro"); ("OS", PStr "Linux/UNIX");
                         ("Region", PStr "us-east-1"); ("State", PStr "running")]]))
    = length items /\
    forall i item,
      items !! i = Some item ->
      exists r,
        df_rows (pd_DataFrame
                   [[("Name", PStr "web-1"); ("Instance ID", PStr "i-01");
                     ("Type", PStr "t3.micro"); ("OS", PStr "Linux/UNIX");
                     ("Region", PStr "us-east-1"); ("State", PStr "running")];
                    [("Name", PStr ""); ("Instance ID", PStr "i-02");
                     ("Type", PStr "t3.micro"); ("OS", PStr "Linux/UNIX");
                     ("Region", PStr "us-east-1"); ("State", PStr "running")]])
          !! i = Some r /\
        item_record ComputeInstance "us-east-1" item = Ok r.
Proof.
  apply (table_rows_follow_items Sample.aws ComputeInstance Sample.inventory "us-east-1"
           Sample.w0).
  reflexivity.
Defined.

(** ** The shape of the tables of a report *)

Lemma table_shape_empty (k : resource_kind) : table_shape k pd_DataFrame_empty.
Proof. reflexivity. Qed.

Lemma table_shape_listed (aws : request -> result pyval) (k : resource_kind)
    (self : AWSInventory) (aws_region : string) (w : world) (df : DataFrame) :
  fst (list_resources aws k self aws_region w) = Ok df -> table_shape k df.
Proof.
  intros Hdf. unfold table_shape.
  destruct (df_rows df) as [|r rows] eqn:Hrows.
  - apply list_resources_rows in Hdf as (_ & _ & _ & _ & _ & _ & Hdf).
    rewrite Hdf, Hrows. reflexivity.
  - eapply nonempty_table_columns; [exact Hdf|]. rewrite Hrows. discriminate.
Qed.

Lemma table_shape_concat (k : resource_kind) (a b : DataFrame) :
  table_shape k a -> table_shape k b -> table_shape k (pd_concat a b).
Proof.
  unfold table_shape, pd_concat. cbn [df_columns df_rows]. intros Ha Hb.
  rewrite Ha, Hb.
  destruct (df_rows a) as [|ra rows_a], (df_rows b) as [|rb rows_b]; cbn [app].
  - reflexivity.
  - destruct k; reflexivity.
  - reflexivity.
  - apply union_columns_known, incl_refl.
Qed.

(** An invariant kept by every pass of a loop holds when the loop ends. *)
Lemma for_loop_preserves {A S} (P : S -> Prop) (step : S -> A -> M S) (l : list A) :
  (forall acc x w acc' w', P acc -> step acc x w = (Ok acc', w') -> P acc') ->
  forall acc w acc' w',
    P acc -> for_loop step l acc w = (Ok acc', w') -> P acc'.
Proof.
  intros Hstep. induction l as [|x l IH]; cbn [for_loop]; intros acc w acc' w' Hacc H.
  - injection H as <- _. exact Hacc.
  - apply bindM_Ok in H as (acc1 & w1 & H1 & H).
    eapply IH; [|exact H]. eapply Hstep; eassumption.
Qed.

(** What one pass of the region loop does to the accumulators. *)
Lemma region_step_Ok (aws : request -> result pyval) (inventory : AWSInventory)
    (acc : tables) (region : string) (w : world) (acc' : tables) (w' : world) :
  region_step aws inventory acc region w = (Ok acc', w') ->
  exists df_ec2 df_rds df_volumes df_snapshots,
    (forall w0, fst (list_resources aws ComputeInstance inventory region w0) = Ok df_ec2) /\
    (forall w0, fst (list_resources aws DatabaseInstance inventory region w0) = Ok df_rds) /\
    (forall w0, fst (list_resources aws Volume inventory region w0) = Ok df_volumes) /\
    (forall w0, fst (list_resources aws Snapshot inventory region w0) = Ok df_snapshots) /\
    acc' = mkTables (pd_concat (all_ec2_data acc) df_ec2)
                    (pd_concat (all_rds_data acc) df_rds)
                    (pd_concat (all_volumes_data acc) df_volumes)
                    (pd_concat (all_snapshots_data acc) df_snapshots).
Proof.
  unfold region_step. intros H.
  apply bindM_Ok in H as (df_ec2 & w1 & H1 & H).
  apply bindM_Ok in H as (df_rds & w2 & H2 & H).
  apply bindM_Ok in H as (df_volumes & w3 & H3 & H).
  apply bindM_Ok in H as (df_snapshots & w4 & H4 & H).
  injection H as <- _.
  exists df_ec2, df_rds, df_volumes, df_snapshots.
  repeat split; intros w0.
  - rewrite (list_resources_any_world aws ComputeInstance inventory region w0 w).
    cbn [list_resources]. rewrite H1. reflexivity.
  - rewrite (list_resources_any_world aws DatabaseInstance inventory region w0 w1).
    cbn [list_resources]. rewrite H2. reflexivity.
  - rewrite (list_resources_any_world aws Volume inventory region w0 w2).
    cbn [list_resources]. rewrite H3. reflexivity.
  - rewrite (list_resources_any_world aws Snapshot inventory region w0 w3).
    cbn [list_resources]. rewrite H4. reflexivity.
Qed.

Lemma loop_rows (aws : request -> result pyval) (inventory : AWSInventory)
    (l : list string) (acc : tables) (w : world) (acc' : tables) (w' w0 : world) :
  for_loop (region_step aws inventory) l acc w = (Ok acc', w') ->
  df_rows (all_ec2_data acc')
  = df_rows (all_ec2_data acc)
    ++ flat_map (region_rows aws ComputeInstance inventory w0) l /\
  df_rows (all_rds_data acc')
  = df_rows (all_rds_data acc)
    ++ flat_map (region_rows aws DatabaseInstance inventory w0) l /\
  df_rows (all_volumes_data acc')
  = df_rows (all_volumes_data acc)
    ++ flat_map (region_rows aws Volume inventory w0) l /\
  df_rows (all_snapshots_data acc')
  = df_rows (all_snapshots_data acc)
    ++ flat_map (region_rows aws Snapshot inventory w0) l.
Proof.
  revert acc w. induction l as [|region l IH]; cbn [for_loop flat_map]; intros acc w H.
  - injection H as <- _. rewrite !app_nil_r. auto.
  - apply bindM_Ok in H as (acc1 & w1 & Hstep & H).
    destruct (IH _ _ H) as (H1 & H2 & H3 & H4).
    apply region_step_Ok in Hstep as (d1 & d2 & d3 & d4 & E1 & E2 & E3 & E4 & ->).
    unfold region_rows. rewrite (E1 w0), (E2 w0), (E3 w0), (E4 w0).
    rewrite H1, H2, H3, H4. cbn [all_ec2_data all_rds_data all_volumes_data
                                  all_snapshots_data pd_concat df_rows].
    rewrite <- !app_assoc. auto.
Qed.

Lemma region_step_shape (aws : request -> result pyval) (inventory : AWSInventory)
    (acc : tables) (region : string) (w : world) (acc' : tables) (w' : world) :
  tables_shape acc ->
  region_step aws inventory acc region w = (Ok acc', w') ->
  tables_shape acc'.
Proof.
  intros (S1 & S2 & S3 & S4) Hstep.
  apply region_step_Ok in Hstep as (d1 & d2 & d3 & d4 & E1 & E2 & E3 & E4 & ->).
  repeat split; cbn [all_ec2_data all_rds_data all_volumes_data all_snapshots_data];
    apply table_shape_concat; try assumption.
  - exact (table_shape_listed aws _ inventory region w _ (E1 w)).
  - exact (table_shape_listed aws _ inventory region w _ (E2 w)).
  - exact (table_shape_listed aws _ inventory region w _ (E3 w)).
  - exact (table_shape_listed aws _ inventory region w _ (E4 w)).
Qed.

(** What a collection that ends without exception has assembled. *)
Lemma assemble_tables (aws : request -> result pyval) (yaml_load : string -> result pyval)
    (argv : list string) (w w1 : world) (output_file : string)
    (df_dict : list (string * DataFrame)) :
  assemble aws yaml_load argv w = (Ok (output_file, df_dict), w1) ->
  exists inventory acc df_s3,
    fst (AWSInventory__init__ yaml_load "aws_credentials.yml" w) = Ok inventory /\
    df_dict = [("EC2", all_ec2_data acc); ("RDS", all_rds_data acc);
               ("EC2-Volumes", all_volumes_data acc);
               ("EC2-Snapshots", all_snapshots_data acc); ("S3-Buckets", df_s3)] /\
    tables_shape acc /\
    (forall w0,
       df_rows (all_ec2_data acc)
       = flat_map (region_rows aws ComputeInstance inventory w0) regions /\
       df_rows (all_rds_data acc)
       = flat_map (region_rows aws DatabaseInstance inventory w0) regions /\
       df_rows (all_volumes_data acc)
       = flat_map (region_rows aws Volume inventory w0) regions /\
       df_rows (all_snapshots_data acc)
       = flat_map (region_rows aws Snapshot inventory w0) regions /\
       fst (list_resources aws Bucket inventory "us-east-1" w0) = Ok df_s3).
Proof.
  unfold assemble. intros H.
  apply bindM_Ok in H as (out & w2 & Hout & H).
  assert (Hw2 : w2 = w) by (unfold lift in Hout; congruence). subst w2.
  apply bindM_Ok in H as (inventory & w3 & Hinit & H).
  apply bindM_Ok in H as (acc & w4 & Hloop & H).
  apply bindM_Ok in H as (df_s3 & w5 & Hs3 & H).
  injection H as _ <- _.
  exists inventory, acc, df_s3.
  split; [rewrite Hinit; reflexivity|]. split; [reflexivity|]. split.
  - refine (for_loop_preserves tables_shape (region_step aws inventory) regions
              _ _ _ _ _ _ Hloop).
    + intros acc0 x wa acc' wb Hacc Hstep. eapply region_step_shape; eassumption.
    + repeat split.
  - intros w0.
    destruct (loop_rows aws inventory regions _ _ _ _ w0 Hloop) as (H1 & H2 & H3 & H4).
    repeat split; try assumption.
    rewrite (list_resources_any_world aws Bucket inventory "us-east-1" w0 w4).
    cbn [list_resources]. rewrite Hs3. reflexivity.
Qed.

Lemma region_rows_region (aws : request -> result pyval) (k : resource_kind)
    (self : AWSInventory) (w : world) (region : string) (r : record) :
  In k [ComputeInstance; Volume; Snapshot] ->
  In r (region_rows aws k self w region) ->
  cell r "Region" = Some (PStr region).
Proof.
  intros Hk Hr. unfold region_rows in Hr.
  destruct (fst (list_resources aws k self region w)) as [df|e] eqn:Hdf; [|destruct Hr].
  apply list_resources_rows in Hdf as (_ & _ & items & _ & _ & Hall & _).
  induction Hall as [|item r' items rows Hitem _ IH]; [destruct Hr|].
  destruct Hr as [->|Hr]; [|exact (IH Hr)].
  eapply item_record_region; eassumption.
Qed.

Section Reports.

Variable aws : request -> result pyval.
Variable yaml_load : string -> result pyval.

(** The rows of each table of a report are the rows of the three
    regions one after the other, in the order us-east-1, eu-west-1,
    sa-east-1 (nothing is dropped, merged or reordered), and the bucket
    table has the rows of the one bucket listing. *)
Theorem report_rows_by_region (argv : list string) (w w1 : world)
    (output_file : string) (df_dict : list (string * DataFrame)) :
  assemble aws yaml_load argv w = (Ok (output_file, df_dict), w1) ->
  exists inventory,
    fst (AWSInventory__init__ yaml_load "aws_credentials.yml" w) = Ok inventory /\
    forall w0,
      map (fun item => (fst item, df_rows (snd item))) df_dict
      = [("EC2", flat_map (region_rows aws ComputeInstance inventory w0) regions);
         ("RDS", flat_map (region_rows aws DatabaseInstance inventory w0) regions);
         ("EC2-Volumes", flat_map (region_rows aws Volume inventory w0) regions);
         ("EC2-Snapshots", flat_map (region_rows aws Snapshot inventory w0) regions);
         ("S3-Buckets", region_rows aws Bucket inventory w0 "us-east-1")].
Proof.
  intros H.
  apply assemble_tables in H as (inventory & acc & df_s3 & Hinit & -> & _ & Hrows).
  exists inventory. split; [exact Hinit|].
  intros w0. destruct (Hrows w0) as (H1 & H2 & H3 & H4 & H5).
  cbn [map fst snd]. unfold region_rows at 5. rewrite H1, H2, H3, H4, H5. reflexivity.
Qed.

(** Each table of a report is either bare, without rows and without
    columns, or has exactly the columns of its kind: regions without
    resources add no column, and a kind without any resource gives a
    sheet without header. *)
Theorem report_tables_shape (argv : list string) (w w1 : world)
    (output_file : string) (df_dict : list (string * DataFrame)) :
  assemble aws yaml_load argv w = (Ok (output_file, df_dict), w1) ->
  Forall2 (fun k item => table_shape k (snd item))
    [ComputeInstance; DatabaseInstance; Volume; Snapshot; Bucket] df_dict.
Proof.
  intros H.
  apply assemble_tables in H as (inventory & acc & df_s3 & _ & -> & Hshape & Hrows).
  destruct Hshape as (S1 & S2 & S3 & S4).
  destruct (Hrows w) as (_ & _ & _ & _ & H5).
  repeat constructor; cbn [snd]; try assumption.
  exact (table_shape_listed aws Bucket inventory "us-east-1" w df_s3 H5).
Qed.

(** In a report, every row of the EC2, EC2-Volumes and EC2-Snapshots
    tables has, in its Region cell, one of the three regions of the
    run. *)
Theorem report_rows_regions (argv : list string) (w w1 : world)
    (output_file : string) (df_dict : list (string * DataFrame))
    (sheet_name : string) (df : DataFrame) (r : record) :
  assemble aws yaml_load argv w = (Ok (output_file, df_dict), w1) ->
  In (sheet_name, df) df_dict ->
  In sheet_name ["EC2"; "EC2-Volumes"; "EC2-Snapshots"] ->
  In r (df_rows df) ->
  exists region, In region regions /\ cell r "Region" = Some (PStr region).
Proof.
  intros H Hdf Hname Hr.
  apply assemble_tables in H as (inventory & acc & df_s3 & _ & -> & _ & Hrows).
  destruct (Hrows w) as (H1 & _ & H3 & H4 & _).
  assert (Hk : exists k, In k [ComputeInstance; Volume; Snapshot] /\
                         df_rows df = flat_map (region_rows aws k inventory w) regions).
  { cbn [In] in Hdf, Hname.
    destruct Hdf as [E|[E|[E|[E|[E|[]]]]]]; injection E as <- <-.
    - exists ComputeInstance. split; [cbn; tauto|exact H1].
    - exfalso. intuition discriminate.
    - exists Volume. split; [cbn; tauto|exact H3].
    - exists Snapshot. split; [cbn; tauto|exact H4].
    - exfalso. intuition discriminate. }
  destruct Hk as (k & Hk & Hrows_k). rewrite Hrows_k in Hr.
  apply in_flat_map in Hr as (region & Hregion & Hr).
  exists region. split; [exact Hregion|].
  eapply region_rows_region; eassumption.
Qed.

End Reports.

Lemma report_rows_by_region_witness :
  exists inventory,
    fst (AWSInventory__init__ Sample.yaml_load "aws_credentials.yml" Sample.w0)
    = Ok inventory /\
    forall w0,
      map (fun item => (fst item, df_rows (snd item))) Sample.report_tables
      = [("EC2", flat_map (region_rows Sample.aws ComputeInstance inventory w0) regions);
         ("RDS", flat_map (region_rows Sample.aws DatabaseInstance inventory w0) regions);
         ("EC2-Volumes", flat_map (region_rows Sample.aws Volume inventory w0) regions);
         ("EC2-Snapshots", flat_map (region_rows Sample.aws Snapshot inventory w0) regions);
         ("S3-Buckets", region_rows Sample.aws Bucket inventory w0 "us-east-1")].
Proof.
  apply (report_rows_by_region Sample.aws Sample.yaml_load Sample.argv Sample.w0
           (snd (assemble Sample.aws Sample.yaml_load Sample.argv Sample.w0))
           "output.xlsx" Sample.report_tables).
  vm_compute. reflexivity.
Defined.

Lemma report_tables_shape_witness :
  Forall2 (fun k item => table_shape k (snd item))
    [ComputeInstance; DatabaseInstance; Volume; Snapshot; Bucket] Sample.report_tables.
Proof.
  apply (report_tables_shape Sample.aws Sample.yaml_load Sample.argv Sample.w0
           (snd (assemble Sample.aws Sample.yaml_load Sample.argv Sample.w0))
           "output.xlsx" Sample.report_tables).
  vm_compute. reflexivity.
Defined.

Lemma report_rows_regions_witness :
  exists region,
    In region regions /\
    cell [("Snapshot ID", PStr "snap-01"); ("Volume Size", PInt 8);
          ("State", PStr "completed"); ("Region", PStr "eu-west-1")] "Region"
    = Some (PStr region).
Proof.
  apply (report_rows_regions Sample.aws Sample.yaml_load Sample.argv Sample.w0
           (snd (assemble Sample.aws Sample.yaml_load Sample.argv Sample.w0))
           "output.xlsx" Sample.report_tables "EC2-Snapshots"
           (pd_concat (pd_concat (pd_concat pd_DataFrame_empty (pd_DataFrame []))
                         (pd_DataFrame
                            [[("Snapshot ID", PStr "snap-01"); ("Volume Size", PInt 8);
                              ("State", PStr "completed"); ("Region", PStr "eu-west-1")]]))
              (pd_DataFrame []))).
  - vm_compute. reflexivity.
  - vm_compute. tauto.
  - cbn. tauto.
  - cbn. tauto.
Defined.

(** ** Runs that return *)

Lemma list_resources_Ok (aws : request -> result pyval) (k : resource_kind)
    (self : AWSInventory) (aws_region : string) (w0 w : world) (df : DataFrame) :
  fst (list_resources aws k self aws_region w0) = Ok df ->
  list_resources aws k self aws_region w
  = (Ok df, add_calls [issued_request k self aws_region] w).
Proof.
  intros Hdf. rewrite list_resources_result. f_equal.
  rewrite <- Hdf, (list_resources_any_world aws k self aws_region w0 w).
  rewrite (list_resources_result aws k self aws_region w). reflexivity.
Qed.

Lemma region_step_total (aws : request -> result pyval) (inventory : AWSInventory)
    (acc : tables) (region : string) (w0 w : world) :
  (forall k, In k [ComputeInstance; DatabaseInstance; Volume; Snapshot] ->
             exists df, fst (list_resources aws k inventory region w0) = Ok df) ->
  exists acc' w', region_step aws inventory acc region w = (Ok acc', w').
Proof.
  intros Hall.
  destruct (Hall ComputeInstance) as (d1 & H1); [cbn; tauto|].
  destruct (Hall DatabaseInstance) as (d2 & H2); [cbn; tauto|].
  destruct (Hall Volume) as (d3 & H3); [cbn; tauto|].
  destruct (Hall Snapshot) as (d4 & H4); [cbn; tauto|].
  unfold region_step, bindM.
  pose proof (list_resources_Ok aws ComputeInstance inventory region w0 w d1 H1) as E1.
  cbn [list_resources] in E1. rewrite E1.
  pose proof (list_resources_Ok aws DatabaseInstance inventory region w0
                (add_calls [issued_request ComputeInstance inventory region] w) d2 H2) as E2.
  cbn [list_resources] in E2. rewrite E2.
  pose proof (list_resources_Ok aws Volume inventory region w0
                (add_calls [issued_request DatabaseInstance inventory region]
                   (add_calls [issued_request ComputeInstance inventory region] w))
                d3 H3) as E3.
  cbn [list_resources] in E3. rewrite E3.
  pose proof (list_resources_Ok aws Snapshot inventory region w0
                (add_calls [issued_request Volume inventory region]
                   (add_calls [issued_request DatabaseInstance inventory region]
                      (add_calls [issued_request ComputeInstance inventory region] w)))
                d4 H4) as E4.
  cbn [list_resources] in E4. rewrite E4.
  eexists _, _. reflexivity.
Qed.

Lemma loop_total (aws : request -> result pyval) (inventory : AWSInventory)
    (l : list string) (w0 : world) :
  (forall region k,
     In region l -> In k [ComputeInstance; DatabaseInstance; Volume; Snapshot] ->
     exists df, fst (list_resources aws k inventory region w0) = Ok df) ->
  forall acc w, exists acc' w',
    for_loop (region_step aws inventory) l acc w = (Ok acc', w').
Proof.
  induction l as [|region l IH]; intros Hall acc w; cbn [for_loop].
  - eexists _, _. reflexivity.
  - destruct (region_step_total aws inventory acc region w0 w) as (acc1 & w1 & Hstep).
    { intros k Hk. apply Hall; [left; reflexivity|exact Hk]. }
    unfold bindM. rewrite Hstep. apply IH.
    intros region' k Hr Hk. apply Hall; [right; exact Hr|exact Hk].
Qed.

Section Returns.

Variable aws : request -> result pyval.
Variable yaml_load : string -> result pyval.
Variable writer_opens : string -> bool.
Variable sheet_writes : string -> DataFrame -> bool.
Variable eng : engine.

(** A run returns when there is an output path, the collector can be
    built, each of the thirteen listings has a table, the destination
    opens and the engine accepts the five sheet names.  It has then made
    the thirteen calls of the script and replaced the file at the output
    path by a workbook of five sheets; nothing else has changed. *)
Theorem run_returns (argv : list string) (w : world) (output_file : string)
    (inventory : AWSInventory) :
  nth_error argv 1 = Some output_file ->
  fst (AWSInventory__init__ yaml_load "aws_credentials.yml" w) = Ok inventory ->
  (forall region k,
     In region regions -> In k [ComputeInstance; DatabaseInstance; Volume; Snapshot] ->
     exists df, fst (list_resources aws k inventory region w) = Ok df) ->
  (exists df, fst (list_s3_buckets aws inventory w) = Ok df) ->
  writer_opens output_file = true ->
  (forall sheet_name df,
     In sheet_name ["EC2"; "RDS"; "EC2-Volumes"; "EC2-Snapshots"; "S3-Buckets"] ->
     sheet_writes sheet_name df = true) ->
  exists df_dict,
    map fst df_dict = ["EC2"; "RDS"; "EC2-Volumes"; "EC2-Snapshots"; "S3-Buckets"] /\
    main aws yaml_load writer_opens sheet_writes eng argv w
    = (Ok tt,
       mkWorld (<[output_file := Xlsx (map entry_sheet df_dict)]> (w_fs w))
         (w_calls w ++ run_calls inventory) (w_writers w)).
Proof.
  intros Hargv Hinit Hlist (df_s3 & Hs3) Hopen Hsheets.
  assert (Hasm : exists job w1, assemble aws yaml_load argv w = (Ok job, w1)).
  { unfold assemble, bindM at 1 2, lift at 1. rewrite Hargv.
    pose proof (init_world yaml_load "aws_credentials.yml" w) as Hw.
    destruct (AWSInventory__init__ yaml_load "aws_credentials.yml" w) as [r w1].
    cbn [fst snd] in *. subst r w1.
    destruct (loop_total aws inventory regions w Hlist
                (mkTables pd_DataFrame_empty pd_DataFrame_empty
                          pd_DataFrame_empty pd_DataFrame_empty) w)
      as (acc & w2 & Hloop).
    unfold bindM at 1. rewrite Hloop.
    pose proof (list_resources_Ok aws Bucket inventory "us-east-1" w w2 df_s3 Hs3) as E.
    cbn [list_resources] in E. unfold bindM. rewrite E.
    eexists _, _. reflexivity. }
  destruct Hasm as ([out df_dict] & w1 & Hasm).
  destruct (assemble_keys _ _ _ _ _ _ _ Hasm) as (Hout & Hkeys & _).
  rewrite Hargv in Hout. injection Hout as <-.
  pose proof (assemble_run aws yaml_load argv w) as Hrun.
  rewrite Hargv, Hinit, Hasm in Hrun. cbn [fst snd] in Hrun.
  destruct Hrun as (made & rest & Hcalls & -> & Hok).
  destruct (Hok _ eq_refl) as [-> _]. rewrite app_nil_r in Hcalls. subst made.
  exists df_dict. split; [exact Hkeys|].
  rewrite main_unfold, Hasm. cbn [fst snd].
  rewrite save_to_excel_accepted;
    [reflexivity | intros Hnil; rewrite Hnil in Hkeys; discriminate | exact Hopen |].
  apply forallb_forall. intros [sheet_name df] Hin. cbn [fst snd].
  apply Hsheets. rewrite <- Hkeys. apply (in_map fst _ _ Hin).
Qed.

End Returns.

Lemma run_returns_witness :
  exists df_dict,
    map fst df_dict = ["EC2"; "RDS"; "EC2-Volumes"; "EC2-Snapshots"; "S3-Buckets"] /\
    main Sample.aws Sample.yaml_load Sample.writer_opens Sample.sheet_writes Sample.xlsxwriter
      Sample.argv Sample.w0
    = (Ok tt,
       mkWorld (<["output.xlsx" := Xlsx (map entry_sheet df_dict)]> (w_fs Sample.w0))
         (w_calls Sample.w0 ++ run_calls Sample.inventory) (w_writers Sample.w0)).
Proof.
  apply (run_returns Sample.aws Sample.yaml_load Sample.writer_opens Sample.sheet_writes Sample.xlsxwriter
           Sample.argv Sample.w0 "output.xlsx" Sample.inventory).
  - reflexivity.
  - reflexivity.
  - intros region k Hregion Hk. cbn in Hregion, Hk.
    destruct Hregion as [<-|[<-|[<-|[]]]];
      destruct Hk as [<-|[<-|[<-|[<-|[]]]]];
      eexists; vm_compute; reflexivity.
  - eexists. vm_compute. reflexivity.
  - reflexivity.
  - intros sheet_name df Hin. cbn in Hin.
    destruct Hin as [<-|[<-|[<-|[<-|[<-|[]]]]]]; reflexivity.
Defined.
